(** * DeepSpeed timers: a shallow embedding of [deepspeed/utils/timer.py]

    The file embeds the three classes of the module
    ([CudaEventTimer], [SynchronizedWallClockTimer] with its inner [Timer],
    [ThroughputTimer]) and the function [trim_mean], and proves properties
    of them.

    Conventions of the embedding.
    - Python [int] is [Z].  Python [float] values that come from a clock or
      from the device (durations, time stamps, normalizers) are exact
      rationals [Qc]: rounding error of binary64 arithmetic is not modelled.
      The non-finite floats the module can produce ([float("-inf")], the
      [nan] numpy returns for the mean of nothing) live in [pyfloat].
    - A method is a computation in the monad [M S], a state transformer whose
      state survives a raised exception, as a Python object keeps the
      mutations made before the [raise].
    - The collaborators outside the module are inputs: the device clock is an
      oracle [elapsed_time] on event handles, [time.time()] is an argument
      [now], [dist.get_rank()] is a field of the world, [log_dist] and
      [logger.info] append to an output list. *)

From stdpp Require Import base numbers list strings gmap pretty sorting.
From Stdlib Require Import QArith Qcanon Qround.

Local Open Scope Z_scope.
Local Open Scope Qc_scope.

(** ** Python values, exceptions and the method monad *)

Module Py.

Inductive exn : Type :=
| AssertionError (msg : string)
| ZeroDivisionError
| TypeError
| AttributeError
| KeyError
| ImportError (msg : string).

Inductive result (A : Type) : Type :=
| Ok (a : A)
| Raise (e : exn).
Arguments Ok {A} a.
Arguments Raise {A} e.

(** A method over a state [S]: it returns or raises, and leaves a state
    either way. *)
Definition M (S A : Type) : Type := S → result A * S.

#[global] Instance M_ret {S} : MRet (M S) := λ A a s, (Ok a, s).

#[global] Instance M_bind {S} : MBind (M S) := λ A B f m s,
  match m s with
  | (Ok a, s') => f a s'
  | (Raise e, s') => (Raise e, s')
  end.

Definition gets {S A} (f : S → A) : M S A := λ s, (Ok (f s), s).

Definition modify {S} (f : S → S) : M S unit := λ s, (Ok tt, f s).

Definition raise {S A} (e : exn) : M S A := λ s, (Raise e, s).

(** [assert cond, msg] *)
Definition assert {S} (cond : bool) (msg : string) : M S unit :=
  if cond then mret tt else raise (AssertionError msg).

(** [if cond: body] *)
Definition when {S} (cond : bool) (body : M S unit) : M S unit :=
  if cond then body else mret tt.

(** Run a method of a component of the state on the whole state. *)
Definition zoom {S T A} (get : S → T) (put : T → S → S) (m : M T A) : M S A :=
  λ s, let '(r, t') := m (get s) in (r, put t' s).

(** Python floats: the finite ones as exact rationals, and the three
    non-finite values. *)
Inductive pyfloat : Type :=
| Finite (q : Qc)
| PosInf
| NegInf
| NaN.

Definition Qc_ltb (x y : Qc) : bool := bool_decide (x < y).
Definition Qc_leb (x y : Qc) : bool := bool_decide (x ≤ y).
Definition Qc_eqb (x y : Qc) : bool := bool_decide (x = y).

(** The sign of an infinite product or quotient. *)
Definition inf_of_sign (positive : bool) : pyfloat :=
  if positive then PosInf else NegInf.

(** [x * y] on floats. *)
Definition pf_mul (x y : pyfloat) : pyfloat :=
  match x, y with
  | NaN, _ | _, NaN => NaN
  | Finite a, Finite b => Finite (a * b)
  | Finite a, PosInf | PosInf, Finite a =>
      if Qc_eqb a 0 then NaN else inf_of_sign (Qc_ltb 0 a)
  | Finite a, NegInf | NegInf, Finite a =>
      if Qc_eqb a 0 then NaN else inf_of_sign (Qc_ltb a 0)
  | PosInf, PosInf | NegInf, NegInf => PosInf
  | PosInf, NegInf | NegInf, PosInf => NegInf
  end.

(** [x / y] on floats: Python raises [ZeroDivisionError] on a zero divisor,
    whatever the dividend. *)
Definition pf_div (x y : pyfloat) : result pyfloat :=
  match x, y with
  | _, Finite b =>
      if Qc_eqb b 0 then Raise ZeroDivisionError
      else Ok match x with
              | Finite a => Finite (a / b)
              | PosInf => inf_of_sign (Qc_ltb 0 b)
              | NegInf => inf_of_sign (Qc_ltb b 0)
              | NaN => NaN
              end
  | NaN, _ | _, NaN => Ok NaN
  | Finite _, _ => Ok (Finite 0)
  | _, _ => Ok NaN
  end.

(** True division [x / y] of two finite numbers. *)
Definition truediv (x y : Qc) : result Qc :=
  if Qc_eqb y 0 then Raise ZeroDivisionError else Ok (x / y).

(** [x % y] on integers. *)
Definition py_mod (x y : Z) : result Z :=
  if Z.eqb y 0 then Raise ZeroDivisionError else Ok (x `mod` y).

(** The built-in [sum]: a left fold of [+] from [0]. *)
Definition sum (xs : list Qc) : Qc := foldl Qcplus 0 xs.

(** The built-in [round] with one argument: to the nearest integer, a tie
    to the even one. *)
Definition round (x : Qc) : Z :=
  let f := Qfloor x in
  let r := x - Qc_of_Z f in
  let half := Q2Qc (1 # 2) in
  if Qc_ltb r half then f
  else if Qc_ltb half r then (f + 1)%Z
  else if Z.even f then f else (f + 1)%Z.

(** The slice [l[lo:hi]]: a negative index counts from the end, and both
    ends are clamped to the list. *)
Definition slice {A} (l : list A) (lo hi : Z) : list A :=
  let n := Z.of_nat (length l) in
  let clamp i := if (i <? 0)%Z then Z.max (i + n) 0 else Z.min i n in
  take (Z.to_nat (clamp hi - clamp lo)) (drop (Z.to_nat (clamp lo)) l).

(** [list.sort()] on numbers: ascending.  Equal numbers are the same value,
    so which algorithm sorts does not show ([sort_unique] below). *)
Definition sort (l : list Qc) : list Qc := merge_sort Qcle l.

(** [numpy.mean] of a list of numbers: the sum over the count, and [nan]
    (with a warning) for no numbers. *)
Definition np_mean (l : list Qc) : pyfloat :=
  match l with
  | [] => NaN
  | _ => Finite (sum l / Qc_of_Z (Z.of_nat (length l)))
  end.

(** Two digits, zero padded. *)
Definition two_digits (n : Z) : string :=
  (if (n <? 10)%Z then "0" else "") +:+ pretty n.

(** ["{:.2f}".format(x)]: [x] rounded to two decimals, a tie to the even
    neighbour; the sign is that of [x]. *)
Definition format_2f (x : Qc) : string :=
  let n := Z.abs (round (x * Qc_of_Z 100)) in
  (if Qc_ltb x 0 then "-" else "") +:+
  pretty (n `div` 100)%Z +:+ "." +:+ two_digits (n `mod` 100)%Z.

End Py.

Import Py.

(** ** [trim_mean] *)

(** [trim_mean(data, trim_percent)].  The list is sorted in place, so the
    function returns the list the caller is left with, too; the assertion
    is checked before the list is touched. *)
Definition trim_mean (data : list Qc) (trim_percent : Qc)
  : result pyfloat * list Qc :=
  if negb (Qc_leb 0 trim_percent && Qc_leb trim_percent 1)
  then (Raise (AssertionError ""), data)
  else
    let n := Z.of_nat (length data) in
    let data := sort data in
    let k := round (Qc_of_Z n * trim_percent) in
    (Ok (np_mean (slice data k (n - k))), data).

(** ** The device and the log sink *)

(** A recorded CUDA event is a handle; the device numbers them as they are
    recorded. *)
Definition Event : Type := nat.

(** What the timers see of the process: the next event the device hands out,
    the rank [dist.get_rank()] answers, and the lines given to [log_dist],
    each with the ranks it is for. *)
Record World : Type := {
  next_event : Event;
  rank : Z;
  log_out : list (string * list Z)
}.

(** [e = torch.cuda.Event(enable_timing=True); e.record()] *)
Definition Event_record : M World Event := λ w,
  (Ok (next_event w),
   {| next_event := S (next_event w); rank := rank w; log_out := log_out w |}).

(** [log_dist(message, ranks=ranks)] *)
Definition log_dist (message : string) (ranks : list Z) : M World unit :=
  modify (λ w, {| next_event := next_event w; rank := rank w;
                  log_out := log_out w ++ [(message, ranks)] |}).

(** [[f(x) for x in xs]] where [f] may raise. *)
Fixpoint comprehension {A B} (f : A → result B) (xs : list A)
  : result (list B) :=
  match xs with
  | [] => Ok []
  | x :: xs' =>
      match f x with
      | Raise e => Raise e
      | Ok y =>
          match comprehension f xs' with
          | Raise e => Raise e
          | Ok ys => Ok (y :: ys)
          end
      end
  end.

Definition lift {S A} (r : result A) : M S A := λ s, (r, s).

(** ** class CudaEventTimer *)

Module CudaEventTimer.

(** The start event is whatever the owning timer held when it stopped, which
    Python lets be [None]. *)
Record t : Type := __init__ {
  start_event : option Event;
  end_event : Event
}.

Section Device.
(** [start.elapsed_time(end)]: the milliseconds the device measured between
    two recorded events. *)
Variable elapsed_time : Event → Event → Qc.

(** Waiting for the end event changes no value; a [None] start event has no
    [elapsed_time] attribute. *)
Definition get_elapsed_msec (self : t) : result Qc :=
  match start_event self with
  | Some s => Ok (elapsed_time s (end_event self))
  | None => Raise AttributeError
  end.

End Device.
End CudaEventTimer.

(** ** class SynchronizedWallClockTimer *)

Module SynchronizedWallClockTimer.

(** *** class Timer *)
Module Timer.

Record t : Type := mk {
  name_ : string;
  started_ : bool;
  event_timers : list CudaEventTimer.t;
  start_event : option Event;
  elapsed_records : option (list Qc)
}.

Definition __init__ (name : string) : t :=
  {| name_ := name; started_ := false; event_timers := [];
     start_event := None; elapsed_records := None |}.

Definition set_started_ (b : bool) (s : t) : t :=
  {| name_ := name_ s; started_ := b; event_timers := event_timers s;
     start_event := start_event s; elapsed_records := elapsed_records s |}.

Definition set_event_timers (l : list CudaEventTimer.t) (s : t) : t :=
  {| name_ := name_ s; started_ := started_ s; event_timers := l;
     start_event := start_event s; elapsed_records := elapsed_records s |}.

Definition set_start_event (e : option Event) (s : t) : t :=
  {| name_ := name_ s; started_ := started_ s; event_timers := event_timers s;
     start_event := e; elapsed_records := elapsed_records s |}.

Definition set_elapsed_records (r : option (list Qc)) (s : t) : t :=
  {| name_ := name_ s; started_ := started_ s; event_timers := event_timers s;
     start_event := start_event s; elapsed_records := r |}.

(** A method runs on the timer and the world. *)
Definition self {A} (field : t → A) : M (t * World) A :=
  gets (λ s, field s.1).

Definition assign (setter : t → t) : M (t * World) unit :=
  modify (λ s, (setter s.1, s.2)).

Definition device {A} (m : M World A) : M (t * World) A :=
  zoom snd (λ w s, (s.1, w)) m.

(** [start(self)] *)
Definition start : M (t * World) unit :=
  started ← self started_;
  name ← self name_;
  assert (negb started) (name +:+ " timer has already been started");;
  ev ← device Event_record;
  assign (set_start_event (Some ev));;
  assign (set_started_ true).

(** [stop(self, reset=False, record=False)]; neither flag is read. *)
Definition stop (reset record : bool) : M (t * World) unit :=
  started ← self started_;
  assert started "timer is not started";;
  end_event ← device Event_record;
  start_ev ← self start_event;
  timers ← self event_timers;
  assign (set_event_timers (timers ++ [CudaEventTimer.__init__ start_ev end_event]));;
  assign (set_start_event None);;
  assign (set_started_ false).

(** [reset(self)] *)
Definition reset : M (t * World) unit :=
  assign (set_started_ false);;
  assign (set_start_event None);;
  assign (set_elapsed_records None);;
  assign (set_event_timers []).

Section Device.
Variable elapsed_time : Event → Event → Qc.

(** [_get_elapsed_msec(self)] *)
Definition _get_elapsed_msec : M (t * World) Qc :=
  timers ← self event_timers;
  records ← lift (comprehension (CudaEventTimer.get_elapsed_msec elapsed_time) timers);
  assign (set_elapsed_records (Some records));;
  assign (set_event_timers []);;
  mret (sum records).

(** [elapsed(self, reset=True)] *)
Definition elapsed (reset_ : bool) : M (t * World) Qc :=
  started ← self started_;
  when started (stop false false);;
  elapsed_ ← _get_elapsed_msec;
  when reset_ reset;;
  when started start;;
  mret elapsed_.

End Device.

(** [mean(self)]: [trim_mean] takes the length of [elapsed_records] first,
    which [None] does not have, and otherwise sorts that list in place. *)
Definition mean : M (t * World) pyfloat :=
  records ← self elapsed_records;
  match records with
  | None => raise TypeError
  | Some data =>
      let '(r, data') := trim_mean data (Q2Qc (1 # 10)) in
      assign (set_elapsed_records (Some data'));;
      lift r
  end.

End Timer.

(** The registry [self.timers] and the world. *)
Definition state : Type := gmap string Timer.t * World.

Definition __init__ : gmap string Timer.t := ∅.

(** [name in self.timers] *)
Definition contains (name : string) : M state bool :=
  gets (λ s, bool_decide (is_Some (s.1 !! name))).

(** [self.timers[name].method(...)]: the method mutates the timer the
    registry holds. *)
Definition on_timer {A} (name : string) (method : M (Timer.t * World) A)
  : M state A := λ s,
  match s.1 !! name with
  | None => (Raise KeyError, s)
  | Some timer =>
      let '(r, (timer', w')) := method (timer, s.2) in
      (r, (<[name := timer']> s.1, w'))
  end.

(** [__call__(self, name)]: the timer of that name, made on first use. *)
Definition __call__ (name : string) : M state Timer.t :=
  present ← contains name;
  when (negb present)
    (modify (λ s, (<[name := Timer.__init__ name]> s.1, s.2)));;
  on_timer name (gets fst).

(** [ranks or [0]] *)
Definition ranks_or_default (ranks : option (list Z)) : list Z :=
  match ranks with
  | None | Some [] => [0%Z]
  | Some r => r
  end.

(** A loop that updates one local variable. *)
Fixpoint for_fold {S A B} (xs : list A) (acc : B) (body : B → A → M S B)
  : M S B :=
  match xs with
  | [] => mret acc
  | x :: xs' => acc' ← body acc x; for_fold xs' acc' body
  end.

Section Device.
Variable elapsed_time : Event → Event → Qc.

(** [log(self, names, normalizer=1.0, reset=True, memory_breakdown=False,
    ranks=None)] *)
Definition log (names : list string) (normalizer : Qc) (reset : bool)
    (memory_breakdown : bool) (ranks : option (list Z)) : M state unit :=
  assert (Qc_ltb 0 normalizer) "";;
  r ← gets (λ s, rank s.2);
  string ← for_fold names ("rank=" +:+ pretty r +:+ " time (ms)")
    (λ string name,
       present ← contains name;
       if present : bool then
         elapsed_time ← on_timer name (Timer.elapsed elapsed_time reset);
         mret (string +:+ " | " +:+ name +:+ ": "
                      +:+ format_2f (elapsed_time / normalizer))
       else mret string);
  zoom snd (λ w s, (s.1, w)) (log_dist string (ranks_or_default ranks)).

End Device.

(** [get_mean(self, names, normalizer=1.0, reset=True)]; [reset] is not
    read. *)
Definition get_mean (names : list string) (normalizer : Qc) (reset : bool)
  : M state (gmap string pyfloat) :=
  assert (Qc_ltb 0 normalizer) "";;
  for_fold names (∅ : gmap string pyfloat)
    (λ means name,
       present ← contains name;
       if present : bool then
         m ← on_timer name Timer.mean;
         elapsed_time ← lift (pf_div (pf_mul m (Finite (Qc_of_Z 1000)))
                                     (Finite normalizer));
         mret (<[name := elapsed_time]> means)
       else mret means).

End SynchronizedWallClockTimer.

(** ** class ThroughputTimer *)

Module ThroughputTimer.

(** A line given to [self.logging]: the speed report with the epoch, the
    step in the epoch and [avg_samples_per_sec()], and the memory report
    with the epoch and the step.  The memory figures come from torch and
    psutil and are not part of the line here. *)
Inductive line : Type :=
| SpeedLine (epoch_count local_step_count : Z) (samples_per_sec : pyfloat)
| MemoryLine (epoch_count local_step_count : Z).

Record t : Type := mk {
  start_time : Qc;
  end_time : Qc;
  started : bool;
  batch_size : Z;
  num_workers : Z;
  start_step : Z;
  epoch_count : Z;
  local_step_count : Z;
  total_step_count : Z;
  total_elapsed_time : Qc;
  steps_per_output : Z;
  monitor_memory : bool;
  initialized : bool
}.

(** The tracker and the lines it has logged. *)
Definition state : Type := t * list line.

(** [__init__(self, batch_size, num_workers, start_step=2,
    steps_per_output=50, monitor_memory=False, logging_fn=None)], given
    whether psutil could be imported. *)
Definition __init__ (PSUTILS_INSTALLED : bool) (batch_size : option Z)
    (num_workers start_step steps_per_output : Z) (monitor_memory : bool)
  : result t :=
  let self :=
    {| start_time := 0; end_time := 0; started := false;
       batch_size := default 1%Z batch_size;
       num_workers := num_workers; start_step := start_step;
       epoch_count := 0; local_step_count := 0; total_step_count := 0;
       total_elapsed_time := 0; steps_per_output := steps_per_output;
       monitor_memory := monitor_memory; initialized := false |} in
  if monitor_memory && negb PSUTILS_INSTALLED
  then Raise (ImportError "Unable to import 'psutils', please install package")
  else Ok self.

Definition set_start_time (x : Qc) (s : t) : t :=
  mk x (end_time s) (started s) (batch_size s) (num_workers s) (start_step s)
     (epoch_count s) (local_step_count s) (total_step_count s)
     (total_elapsed_time s) (steps_per_output s) (monitor_memory s)
     (initialized s).

Definition set_end_time (x : Qc) (s : t) : t :=
  mk (start_time s) x (started s) (batch_size s) (num_workers s) (start_step s)
     (epoch_count s) (local_step_count s) (total_step_count s)
     (total_elapsed_time s) (steps_per_output s) (monitor_memory s)
     (initialized s).

Definition set_started (x : bool) (s : t) : t :=
  mk (start_time s) (end_time s) x (batch_size s) (num_workers s) (start_step s)
     (epoch_count s) (local_step_count s) (total_step_count s)
     (total_elapsed_time s) (steps_per_output s) (monitor_memory s)
     (initialized s).

Definition set_epoch_count (x : Z) (s : t) : t :=
  mk (start_time s) (end_time s) (started s) (batch_size s) (num_workers s)
     (start_step s) x (local_step_count s) (total_step_count s)
     (total_elapsed_time s) (steps_per_output s) (monitor_memory s)
     (initialized s).

Definition set_local_step_count (x : Z) (s : t) : t :=
  mk (start_time s) (end_time s) (started s) (batch_size s) (num_workers s)
     (start_step s) (epoch_count s) x (total_step_count s)
     (total_elapsed_time s) (steps_per_output s) (monitor_memory s)
     (initialized s).

Definition set_total_step_count (x : Z) (s : t) : t :=
  mk (start_time s) (end_time s) (started s) (batch_size s) (num_workers s)
     (start_step s) (epoch_count s) (local_step_count s) x
     (total_elapsed_time s) (steps_per_output s) (monitor_memory s)
     (initialized s).

Definition set_total_elapsed_time (x : Qc) (s : t) : t :=
  mk (start_time s) (end_time s) (started s) (batch_size s) (num_workers s)
     (start_step s) (epoch_count s) (local_step_count s) (total_step_count s)
     x (steps_per_output s) (monitor_memory s) (initialized s).

Definition set_initialized (x : bool) (s : t) : t :=
  mk (start_time s) (end_time s) (started s) (batch_size s) (num_workers s)
     (start_step s) (epoch_count s) (local_step_count s) (total_step_count s)
     (total_elapsed_time s) (steps_per_output s) (monitor_memory s) x.

Definition self {A} (field : t → A) : M state A := gets (λ s, field s.1).

Definition assign (setter : t → t) : M state unit :=
  modify (λ s, (setter s.1, s.2)).

(** [self.logging(line)] *)
Definition logging (l : line) : M state unit :=
  modify (λ s, (s.1, s.2 ++ [l])).

(** [update_epoch_count(self)] *)
Definition update_epoch_count : M state unit :=
  e ← self epoch_count;
  assign (set_epoch_count (e + 1));;
  assign (set_local_step_count 0).

(** [_init_timer(self)] *)
Definition _init_timer : M state unit :=
  assign (set_initialized true).

(** [start(self)], at the time [now] that [time.time()] would answer. *)
Definition start (now : Qc) : M state unit :=
  _init_timer;;
  assign (set_started true);;
  total ← self total_step_count;
  first ← self start_step;
  when (total >=? first)%Z
    (assign (set_start_time now)).

(** [avg_samples_per_sec(self)] *)
Definition avg_samples_per_sec (s : t) : result pyfloat :=
  if (total_step_count s >? 0)%Z then
    let samples_per_step := (batch_size s * num_workers s)%Z in
    let total_step_offset := (total_step_count s - start_step s)%Z in
    match truediv (total_elapsed_time s) (Qc_of_Z total_step_offset) with
    | Raise e => Raise e
    | Ok avg_time_per_step =>
        match truediv (Qc_of_Z samples_per_step) avg_time_per_step with
        | Raise e => Raise e
        | Ok r => Ok (Finite r)
        end
    end
  else Ok NegInf.

(** [stop(self, report_speed=True)], at the time [now]. *)
Definition stop (now : Qc) (report_speed : bool) : M state unit :=
  running ← self started;
  if negb running then mret tt
  else
    assign (set_started false);;
    total ← self total_step_count;
    assign (set_total_step_count (total + 1));;
    local ← self local_step_count;
    assign (set_local_step_count (local + 1));;
    total ← self total_step_count;
    first ← self start_step;
    when (total >? first)%Z
      (assign (set_end_time now);;
       end_ ← self end_time;
       start_ ← self start_time;
       let duration := end_ - start_ in
       elapsed ← self total_elapsed_time;
       assign (set_total_elapsed_time (elapsed + duration));;
       local ← self local_step_count;
       every ← self steps_per_output;
       remainder ← lift (py_mod local every);
       when (remainder =? 0)%Z
         (when report_speed
            (epoch ← self epoch_count;
             local ← self local_step_count;
             rate ← (λ s, (avg_samples_per_sec s.1, s));
             logging (SpeedLine epoch local rate));;
          monitor ← self monitor_memory;
          when monitor
            (epoch ← self epoch_count;
             local ← self local_step_count;
             logging (MemoryLine epoch local)))).

(** The calls a training loop makes on a tracker. *)
Inductive call : Type :=
| Start (now : Qc)
| Stop (now : Qc) (report_speed : bool)
| UpdateEpochCount.

Definition perform (c : call) : M state unit :=
  match c with
  | Start now => start now
  | Stop now report_speed => stop now report_speed
  | UpdateEpochCount => update_epoch_count
  end.

(** The state after a sequence of calls; a call that raises leaves the
    state it reached, and the loop goes on from there. *)
Definition run (calls : list call) (s : state) : state :=
  foldl (λ s c, (perform c s).2) s calls.

End ThroughputTimer.

Import SynchronizedWallClockTimer.

(** [TT] is short for [ThroughputTimer]. *)
Module TT := ThroughputTimer.

(** * Scenarios and specification-side definitions

    What follows is not in the source: the runs the properties talk about
    (cycles of start and stop, a training loop), the invariant of a timer,
    and the readings of [log] and [get_mean] the properties are compared
    with. *)

(** The world after the device recorded one more event. *)
Definition tick (w : World) : World :=
  {| next_event := S (next_event w); rank := rank w; log_out := log_out w |}.

(** [n] times [timer.start(); timer.stop()]. *)
Fixpoint cycles (n : nat) : M (Timer.t * World) unit :=
  match n with
  | O => mret tt
  | S n' => Timer.start;; Timer.stop false false;; cycles n'
  end.

(** The measurements [n] cycles buffer when the device hands out the events
    from [e] on, and the durations the device reports for them. *)
Fixpoint intervals (e : Event) (n : nat) : list CudaEventTimer.t :=
  match n with
  | O => []
  | S n' => CudaEventTimer.__init__ (Some e) (S e) :: intervals (S (S e)) n'
  end.

Fixpoint measured (elapsed_time : Event → Event → Qc) (e : Event) (n : nat)
  : list Qc :=
  match n with
  | O => []
  | S n' => elapsed_time e (S e) :: measured elapsed_time (S (S e)) n'
  end.

(** A device on which the first three intervals take 10 ms, 12 ms and
    100 ms. *)
Definition three_intervals (start_ end_ : Event) : Qc :=
  match start_ with
  | 0%nat => Qc_of_Z 10
  | 2%nat => Qc_of_Z 12
  | 4%nat => Qc_of_Z 100
  | _ => 0
  end.

Definition fresh_world : World :=
  {| next_event := 0%nat; rank := 0%Z; log_out := [] |}.

(** A measurement holds a start event; a timer is well formed when its
    measurements do and, if it runs, it holds one itself. *)
Definition complete (m : CudaEventTimer.t) : Prop :=
  is_Some (CudaEventTimer.start_event m).

Definition wf_timer (t : Timer.t) : Prop :=
  Forall complete (Timer.event_timers t) ∧
  (Timer.started_ t = true → is_Some (Timer.start_event t)).

Definition wf_registry (timers : gmap string Timer.t) : Prop :=
  map_Forall (λ _ t, wf_timer t) timers.



(** What the spec says [log] prints: for the requested names the registry
    has, in order, the value [elapsed(reset)] returns ... *)
Fixpoint elapsed_values (elapsed_time : Event → Event → Qc) (reset : bool)
    (names : list string) (s : state) : list (string * Qc) * state :=
  match names with
  | [] => ([], s)
  | name :: names' =>
      if bool_decide (is_Some (s.1 !! name)) then
        match on_timer name (Timer.elapsed elapsed_time reset) s with
        | (Ok v, s') =>
            let '(vs, s'') := elapsed_values elapsed_time reset names' s' in
            ((name, v) :: vs, s'')
        | (Raise _, s') => ([], s')
        end
      else elapsed_values elapsed_time reset names' s
  end.


(** ... each as ["name: value"], the value over the normalizer with two
    decimals, after the rank. *)
Definition segment (normalizer : Qc) (entry : string * Qc) : string :=
  " | " +:+ entry.1 +:+ ": " +:+ format_2f (entry.2 / normalizer).

Definition log_line (rank : Z) (normalizer : Qc) (vals : list (string * Qc))
  : string :=
  "rank=" +:+ pretty rank +:+ " time (ms)"
  +:+ foldr (λ entry rest, segment normalizer entry +:+ rest) "" vals.

(** The timer "a" after three start/stop cycles on a fresh device, and a
    registry holding just that timer. *)
Definition timer_a : Timer.t :=
  Timer.mk "a" false (intervals 0%nat 3) None None.

Definition registry_a : state :=
  ({[ "a" := timer_a ]},
   {| next_event := 6%nat; rank := 0%Z; log_out := [] |}).

(** The trim fraction [Timer.mean] passes. *)
Definition tenth : Qc := Q2Qc (1 # 10).

(** What the spec says [get_mean] maps a name to, for the durations [data]
    the last [elapsed] left in the timer: [mean() * 1000 / normalizer]. *)
Definition mean_entry (normalizer : Qc) (data : list Qc) (v : pyfloat) : Prop :=
  ∃ mu, (trim_mean data tenth).1 = Ok mu ∧
        pf_div (pf_mul mu (Finite (Qc_of_Z 1000))) (Finite normalizer) = Ok v.

(** The registry [r] is [r0] but for timers whose durations were sorted. *)
Definition sorted_from (r0 r : gmap string Timer.t) : Prop :=
  dom r = dom r0 ∧
  ∀ name t, r !! name = Some t →
    ∃ t0, r0 !! name = Some t0 ∧
      (Timer.elapsed_records t = Timer.elapsed_records t0 ∨
       ∃ data, Timer.elapsed_records t0 = Some data ∧
               Timer.elapsed_records t = Some (sort data)).

(** The registry of [registry_a] once [timers("a").elapsed(reset=False)]
    has drained the three measurements into [elapsed_records]. *)
Definition timer_a_read : Timer.t :=
  Timer.mk "a" false [] None (Some [Qc_of_Z 10; Qc_of_Z 12; Qc_of_Z 100]).

Definition registry_a_read : state := ({[ "a" := timer_a_read ]}, registry_a.2).

(** The tracker [stop] leaves when it was running: the step is counted, and
    timed if it is past the warm-up. *)
Definition after_stop (now : Qc) (t : TT.t) : TT.t :=
  if negb (TT.started t) then t
  else
    let total := (TT.total_step_count t + 1)%Z in
    let timed := (total >? TT.start_step t)%Z in
    TT.mk (TT.start_time t) (if timed then now else TT.end_time t) false
      (TT.batch_size t) (TT.num_workers t) (TT.start_step t)
      (TT.epoch_count t) (TT.local_step_count t + 1)%Z total
      (if timed then TT.total_elapsed_time t + (now - TT.start_time t)
       else TT.total_elapsed_time t)
      (TT.steps_per_output t) (TT.monitor_memory t) (TT.initialized t).

Definition after_start (now : Qc) (t : TT.t) : TT.t :=
  TT.mk (if (TT.total_step_count t >=? TT.start_step t)%Z then now
         else TT.start_time t)
    (TT.end_time t) true
    (TT.batch_size t) (TT.num_workers t) (TT.start_step t)
    (TT.epoch_count t) (TT.local_step_count t) (TT.total_step_count t)
    (TT.total_elapsed_time t)
    (TT.steps_per_output t) (TT.monitor_memory t) true.

(** [for now in starts: timer.start(); ...; timer.stop()], each step taking
    [duration]. *)
Definition training (starts : list Qc) (duration : Qc) : list TT.call :=
  starts ≫= λ now, [TT.Start now; TT.Stop (now + duration) true].

(** The tracker of the scenario: 32 samples a batch, 4 workers, 2 warm-up
    steps, a report every 50 steps. *)
Definition tracker_32 : TT.t :=
  TT.mk 0 0 false 32 4 2 0 0 0 0 50 false false.

(** ** Sequences of calls and what they keep *)

(** The calls a program makes on one timer; what [elapsed] and [mean]
    return is dropped, what they do to the timer is kept. *)
Inductive timer_call : Type :=
| CallStart
| CallStop
| CallReset
| CallElapsed (reset : bool)
| CallMean.

Definition timer_perform (elapsed_time : Event → Event → Qc) (c : timer_call)
  : M (Timer.t * World) unit :=
  match c with
  | CallStart => Timer.start
  | CallStop => Timer.stop false false
  | CallReset => Timer.reset
  | CallElapsed reset => Timer.elapsed elapsed_time reset;; mret tt
  | CallMean => Timer.mean;; mret tt
  end.

(** The timer and the world after a sequence of calls, failed ones
    included. *)
Definition timer_run (elapsed_time : Event → Event → Qc)
    (calls : list timer_call) (s : Timer.t * World) : Timer.t * World :=
  foldl (λ s c, (timer_perform elapsed_time c s).2) s calls.

(** The invariant of a timer called [name]: it runs exactly when it holds a
    start event, and its measurements all have one. *)
Definition timer_inv (name : string) (t : Timer.t) : Prop :=
  Timer.name_ t = name ∧
  (Timer.started_ t = true ↔ is_Some (Timer.start_event t)) ∧
  Forall complete (Timer.event_timers t).

(** A timer is [t0] itself or [t0] with its recorded durations sorted. *)
Definition same_but_sorted (t0 t : Timer.t) : Prop :=
  t = t0 ∨
  ∃ data, Timer.elapsed_records t0 = Some data ∧
          t = Timer.set_elapsed_records (Some (sort data)) t0.

(** A training loop whose steps start at given times and take given
    durations: [(start, duration)] for each step. *)
Definition training_steps (steps : list (Qc * Qc)) : list TT.call :=
  steps ≫= λ step, [TT.Start step.1; TT.Stop (step.1 + step.2) true].

(** What a logged line of a tracker reporting every [every] steps looks
    like: made at a step of the epoch that is a positive multiple of
    [every], a speed line with a rate that is not the [-inf] that
    [avg_samples_per_sec] answers before the first step, a memory line only
    when memory is monitored. *)
Definition line_ok (every : Z) (monitor : bool) (l : TT.line) : Prop :=
  match l with
  | TT.SpeedLine epoch step rate =>
      (0 ≤ epoch ∧ 1 ≤ step ∧ every ≠ 0 ∧ step `mod` every = 0)%Z ∧
      rate ≠ NegInf
  | TT.MemoryLine epoch step =>
      (0 ≤ epoch ∧ 1 ≤ step ∧ every ≠ 0 ∧ step `mod` every = 0)%Z ∧
      monitor = true
  end.

(** What the calls keep of a tracker that started as [t0]. *)
Definition tracker_inv (t0 : TT.t) (s : TT.state) : Prop :=
  TT.batch_size s.1 = TT.batch_size t0 ∧
  TT.num_workers s.1 = TT.num_workers t0 ∧
  TT.start_step s.1 = TT.start_step t0 ∧
  TT.steps_per_output s.1 = TT.steps_per_output t0 ∧
  TT.monitor_memory s.1 = TT.monitor_memory t0 ∧
  (0 ≤ TT.epoch_count s.1)%Z ∧
  (0 ≤ TT.local_step_count s.1 ≤ TT.total_step_count s.1)%Z ∧
  Forall (line_ok (TT.steps_per_output t0) (TT.monitor_memory t0)) s.2.

(** * Properties *)

(** ** Numbers *)

Lemma Qc_ltb_true x y : Qc_ltb x y = true ↔ x < y.
Proof. unfold Qc_ltb. apply bool_decide_eq_true. Qed.
Lemma Qc_ltb_false x y : Qc_ltb x y = false ↔ y ≤ x.
Proof. unfold Qc_ltb. rewrite bool_decide_eq_false. symmetry. apply Qcle_ngt. Qed.
Lemma Qc_leb_true x y : Qc_leb x y = true ↔ x ≤ y.
Proof. unfold Qc_leb. apply bool_decide_eq_true. Qed.
Lemma Qc_eqb_false x y : Qc_eqb x y = false ↔ x ≠ y.
Proof. unfold Qc_eqb. apply bool_decide_eq_false. Qed.



Lemma Qfloor_Qc_lt (x : Qc) : x < Qc_of_Z (Qfloor x + 1).
Proof. unfold Qclt. simpl. apply Qlt_floor. Qed.





(** ** [trim_mean] *)

Lemma slice_trim {A} (l : list A) (k : Z) :
  (0 ≤ k ≤ Z.of_nat (length l))%Z →
  slice l k (Z.of_nat (length l) - k) =
  take (length l - 2 * Z.to_nat k) (drop (Z.to_nat k) l).
Proof.
  intros Hk. unfold slice.
  destruct (Z.ltb_spec k 0); [lia|].
  destruct (Z.ltb_spec (Z.of_nat (length l) - k) 0); [lia|].
  f_equal; [lia|f_equal; lia].
Qed.

Lemma length_sort l : length (sort l) = length l.
Proof. unfold sort. by rewrite merge_sort_Permutation. Qed.

Lemma sort_Sorted l : Sorted Qcle (sort l).
Proof. apply (Sorted_merge_sort Qcle). Qed.

Lemma sort_Permutation l : sort l ≡ₚ l.
Proof. apply merge_sort_Permutation. Qed.

(** The order on numbers is total and antisymmetric, so the sorted list does
    not depend on the algorithm that sorts. *)
Lemma sort_unique l l' : Sorted Qcle l' → l' ≡ₚ l → l' = sort l.
Proof.
  intros Hsorted Hperm. apply (Sorted_unique Qcle); [done|apply sort_Sorted|].
  by rewrite sort_Permutation.
Qed.

Lemma sort_idemp l : sort (sort l) = sort l.
Proof.
  apply (Sorted_unique Qcle); [apply sort_Sorted..|].
  apply sort_Permutation.
Qed.


Lemma trim_mean_assert data p :
  0 ≤ p ≤ 1 ∨ trim_mean data p = (Raise (AssertionError ""), data).
Proof.
  unfold trim_mean.
  destruct (Qc_leb 0 p) eqn:H0; [|by right].
  destruct (Qc_leb p 1) eqn:H1; [|by right].
  left. by rewrite <-!Qc_leb_true.
Qed.

Lemma trim_mean_in_range data p :
  0 ≤ p ≤ 1 →
  trim_mean data p =
  (Ok (np_mean (slice (sort data) (round (Qc_of_Z (Z.of_nat (length data)) * p))
                  (Z.of_nat (length data)
                   - round (Qc_of_Z (Z.of_nat (length data)) * p)))),
   sort data).
Proof.
  intros [H0 H1]. unfold trim_mean.
  apply Qc_leb_true in H0, H1. by rewrite H0, H1.
Qed.





(** ** [Timer]: start, stop, elapsed *)

Ltac unfold_method :=
  unfold Timer.elapsed;
  unfold Timer.start, Timer.stop, Timer.reset, Timer._get_elapsed_msec,
    Timer.mean, Timer.self, Timer.assign, Timer.device,
    Event_record, zoom, assert, when, raise, lift, gets, modify,
    mbind, mret, M_bind, M_ret.

Ltac qc_compute :=
  vm_compute; first [reflexivity | f_equal; apply Qc_is_canon; reflexivity].

Lemma start_when_stopped (t : Timer.t) (w : World) :
  Timer.started_ t = false →
  Timer.start (t, w) =
  (Ok (), (Timer.mk (Timer.name_ t) true (Timer.event_timers t)
             (Some (next_event w)) (Timer.elapsed_records t), tick w)).
Proof. intros H. unfold_method. cbn. rewrite H. done. Qed.

Lemma start_when_started (t : Timer.t) (w : World) :
  Timer.started_ t = true →
  Timer.start (t, w) =
  (Raise (AssertionError (Timer.name_ t +:+ " timer has already been started")),
   (t, w)).
Proof. intros H. unfold_method. cbn. rewrite H. done. Qed.

Lemma stop_when_started (t : Timer.t) (w : World) reset record :
  Timer.started_ t = true →
  Timer.stop reset record (t, w) =
  (Ok (), (Timer.mk (Timer.name_ t) false
             (Timer.event_timers t
                ++ [CudaEventTimer.__init__ (Timer.start_event t) (next_event w)])
             None (Timer.elapsed_records t), tick w)).
Proof. intros H. unfold_method. cbn. rewrite H. done. Qed.

Lemma stop_when_stopped (t : Timer.t) (w : World) reset record :
  Timer.started_ t = false →
  Timer.stop reset record (t, w) =
  (Raise (AssertionError "timer is not started"), (t, w)).
Proof. intros H. unfold_method. cbn. rewrite H. done. Qed.

(** C6.  [start()] fails with the "already started" assertion exactly when
    the timer is running, and [stop()] with the "not started" assertion
    exactly when it is not.  Otherwise [start] records an event, holds it and
    leaves the timer running with its measurements untouched, and [stop]
    appends exactly one measurement, made of the held start event and a new
    end event, drops the held event and leaves the timer stopped. *)
Theorem C6_start_stop_protocol (t : Timer.t) (w : World) (reset record : bool) :
  ((Timer.start (t, w)).1
     = Raise (AssertionError (Timer.name_ t +:+ " timer has already been started"))
   ↔ Timer.started_ t = true) ∧
  ((Timer.stop reset record (t, w)).1
     = Raise (AssertionError "timer is not started")
   ↔ Timer.started_ t = false) ∧
  (Timer.started_ t = false →
     ∃ t', Timer.start (t, w) = (Ok (), (t', tick w)) ∧
       Timer.started_ t' = true ∧
       Timer.start_event t' = Some (next_event w) ∧
       Timer.event_timers t' = Timer.event_timers t) ∧
  (Timer.started_ t = true →
     ∃ t' measurement, Timer.stop reset record (t, w) = (Ok (), (t', tick w)) ∧
       Timer.started_ t' = false ∧
       Timer.start_event t' = None ∧
       measurement = CudaEventTimer.__init__ (Timer.start_event t) (next_event w) ∧
       Timer.event_timers t' = Timer.event_timers t ++ [measurement]).
Proof.
  destruct (Timer.started_ t) eqn:Hs.
  - rewrite start_when_started, (stop_when_started _ _ _ _ Hs) by done.
    split_and!; [done|done|done|].
    intros _. eexists _, _. split_and!; done.
  - rewrite start_when_stopped, (stop_when_stopped _ _ _ _ Hs) by done.
    split_and!; [done|done| |done].
    intros _. eexists. split_and!; done.
Qed.

(** C6 on a fresh timer: [stop()] fails, [start()] succeeds, and a second
    [start()] fails. *)
Lemma C6_witness :
  (Timer.stop false false (Timer.__init__ "forward", fresh_world)).1
  = Raise (AssertionError "timer is not started") ∧
  (Timer.start (Timer.__init__ "forward", fresh_world)).1 = Ok () ∧
  (Timer.start (Timer.start (Timer.__init__ "forward", fresh_world)).2).1
  = Raise (AssertionError "forward timer has already been started").
Proof.
  split_and!.
  - by apply (C6_start_stop_protocol (Timer.__init__ "forward") fresh_world).
  - reflexivity.
  - change (Timer.start (Timer.__init__ "forward", fresh_world)).2
      with (Timer.mk "forward" true [] (Some 0%nat) None, tick fresh_world).
    by apply (C6_start_stop_protocol
                (Timer.mk "forward" true [] (Some 0%nat) None)
                (tick fresh_world) false false).
Defined.

Section Device.
Variable elapsed_time : Event → Event → Qc.

Abbreviation durations :=
  (comprehension (CudaEventTimer.get_elapsed_msec elapsed_time)).

Lemma durations_app l1 l2 d1 d2 :
  durations l1 = Ok d1 → durations l2 = Ok d2 →
  durations (l1 ++ l2) = Ok (d1 ++ d2).
Proof.
  revert d1. induction l1 as [|m l1 IH]; intros d1 H1 H2; simpl in *.
  - by simplify_eq.
  - destruct (CudaEventTimer.get_elapsed_msec elapsed_time m); [|done].
    destruct (durations l1) as [d|]; [|done].
    simplify_eq. by rewrite (IH d).
Qed.

Lemma durations_intervals e n :
  durations (intervals e n) = Ok (measured elapsed_time e n).
Proof.
  revert e. induction n as [|n IH]; intros e; simpl; [done|].
  by rewrite IH.
Qed.

Lemma cycles_when_stopped n : ∀ (t : Timer.t) (w : World),
  Timer.started_ t = false →
  ∃ t' w',
    cycles n (t, w) = (Ok (), (t', w')) ∧
    Timer.started_ t' = false ∧
    Timer.event_timers t' = Timer.event_timers t ++ intervals (next_event w) n ∧
    Timer.elapsed_records t' = Timer.elapsed_records t ∧
    Timer.name_ t' = Timer.name_ t ∧
    next_event w' = (next_event w + 2 * n)%nat ∧
    rank w' = rank w ∧ log_out w' = log_out w.
Proof.
  induction n as [|n IH]; intros t w Hs.
  - exists t, w. simpl. rewrite app_nil_r. split_and!; try done; lia.
  - cbn [cycles]. unfold mbind at 1, M_bind.
    rewrite start_when_stopped by done.
    unfold mbind at 1, M_bind.
    rewrite stop_when_started by done.
    match goal with
    | |- context [cycles n (?t1, ?w1)] =>
        destruct (IH t1 w1 eq_refl) as (t' & w' & -> & ? & Hev & ? & ? & Hn & ? & ?)
    end.
    exists t', w'. split_and!; try done.
    + rewrite Hev. cbn. by rewrite <-app_assoc.
    + rewrite Hn. cbn. lia.
Qed.

Lemma elapsed_when_stopped (t : Timer.t) (w : World) (reset : bool) buffered :
  Timer.started_ t = false →
  durations (Timer.event_timers t) = Ok buffered →
  Timer.elapsed elapsed_time reset (t, w) =
  (Ok (sum buffered),
   (if reset then Timer.mk (Timer.name_ t) false [] None None
    else Timer.mk (Timer.name_ t) false [] (Timer.start_event t) (Some buffered),
    w)).
Proof.
  intros Hs Hd. unfold_method.
  cbn -[comprehension CudaEventTimer.get_elapsed_msec]. rewrite Hs.
  cbn -[comprehension CudaEventTimer.get_elapsed_msec]. rewrite Hd.
  destruct reset; cbn; [done|].
  by rewrite <-Hs; destruct t.
Qed.

End Device.

Lemma sum_snoc l x : sum (l ++ [x]) = sum l + x.
Proof. unfold sum. by rewrite foldl_app. Qed.

Lemma sum_foldl_shift a l : foldl Qcplus a l = a + sum l.
Proof.
  unfold sum. revert a. induction l as [|x l IH]; intros a; simpl.
  - by rewrite Qcplus_0_r.
  - rewrite IH, (IH (0 + x)). ring.
Qed.

Lemma sum_cons x l : sum (x :: l) = x + sum l.
Proof. unfold sum at 1. simpl. rewrite sum_foldl_shift. ring. Qed.

Lemma sum_app l1 l2 : sum (l1 ++ l2) = sum l1 + sum l2.
Proof. unfold sum at 1. rewrite foldl_app. apply sum_foldl_shift. Qed.

(** C1.  On a stopped timer whose buffered measurements the device reports
    as [buffered], after any number [n] of start/stop cycles with no
    aggregation in between, [elapsed()] (with either value of [reset])
    returns the sum of the buffered durations and of the durations the device
    reports for the [n] new intervals, in the order they were taken; the sum
    is the sum of the two parts.  In particular, with nothing buffered and
    three intervals measured at 10 ms, 12 ms and 100 ms, it returns 122. *)
Theorem C1_elapsed_adds_up elapsed_time (t : Timer.t) (w : World) (n : nat)
    (reset : bool) (buffered : list Qc) :
  Timer.started_ t = false →
  comprehension (CudaEventTimer.get_elapsed_msec elapsed_time)
    (Timer.event_timers t) = Ok buffered →
  let new := measured elapsed_time (next_event w) n in
  let answer :=
    ((cycles n;; Timer.elapsed elapsed_time reset) (t, w)).1 in
  answer = Ok (sum (buffered ++ new)) ∧
  sum (buffered ++ new) = sum buffered + foldr Qcplus 0 new ∧
  (buffered = [] → new = [Qc_of_Z 10; Qc_of_Z 12; Qc_of_Z 100] →
   answer = Ok (Qc_of_Z 122)).
Proof.
  intros Hs Hb new answer.
  assert (answer = Ok (sum (buffered ++ new))) as Hanswer.
  { unfold answer. unfold mbind, M_bind.
    destruct (cycles_when_stopped n t w Hs)
      as (t' & w' & -> & Hs' & Hev & _).
    erewrite elapsed_when_stopped; [done|done|].
    rewrite Hev. apply durations_app; [done|apply durations_intervals]. }
  split_and!; [done| |].
  - rewrite sum_app. f_equal. clear. induction new as [|x l IH]; [done|].
    by rewrite sum_cons, IH.
  - intros -> Hnew. rewrite Hanswer, Hnew. f_equal. by apply Qc_is_canon.
Qed.

(** C1 on a fresh timer and the device of [three_intervals]: 122 ms. *)
Lemma C1_witness :
  ((cycles 3;; Timer.elapsed three_intervals true)
     (Timer.__init__ "forward", fresh_world)).1 = Ok (Qc_of_Z 122).
Proof.
  apply (C1_elapsed_adds_up three_intervals (Timer.__init__ "forward")
           fresh_world 3 true []); reflexivity.
Defined.

(** On any stopped timer the first [elapsed(reset=False)] returns the sum
    of the buffered durations and drains the buffer, so the second one
    returns 0. *)
Lemma elapsed_drains_buffer elapsed_time (t : Timer.t) (w : World) buffered :
  Timer.started_ t = false →
  comprehension (CudaEventTimer.get_elapsed_msec elapsed_time)
    (Timer.event_timers t) = Ok buffered →
  ∃ s1 s2,
    Timer.elapsed elapsed_time false (t, w) = (Ok (sum buffered), s1) ∧
    Timer.elapsed elapsed_time false s1 = (Ok 0, s2).
Proof.
  intros Hs Hb. eexists _, _. split.
  - by apply elapsed_when_stopped.
  - cbn [negb]. by apply (elapsed_when_stopped _ _ _ false []).
Qed.

(** C5.  A stopped timer with one interval of 10 ms buffered:
    the first [elapsed(reset=False)] returns 10 and the second, with no
    start or stop in between, returns 0. *)
Lemma C5_elapsed_twice_differs :
  let s0 := (cycles 1 (Timer.__init__ "forward", fresh_world)).2 in
  let first := Timer.elapsed three_intervals false s0 in
  let second := Timer.elapsed three_intervals false first.2 in
  Timer.started_ s0.1 = false ∧
  first.1 = Ok (Qc_of_Z 10) ∧ second.1 = Ok 0 ∧ first.1 ≠ second.1.
Proof.
  cbv zeta. split_and!.
  - reflexivity.
  - qc_compute.
  - qc_compute.
  - vm_compute. intros H. discriminate H.
Qed.

(** ** [SynchronizedWallClockTimer.log] *)

Lemma string_app_cons x (a b : string) : String x a +:+ b = String x (a +:+ b).
Proof. reflexivity. Qed.

Lemma string_app_assoc (a b c : string) : (a +:+ b) +:+ c = a +:+ b +:+ c.
Proof.
  induction a as [|x a IH]; [done|].
  rewrite !string_app_cons. by f_equal.
Qed.

Lemma string_app_empty_r (a : string) : a +:+ "" = a.
Proof.
  induction a as [|x a IH]; [done|].
  rewrite string_app_cons. by f_equal.
Qed.




Lemma dom_insert_present {A} (m : gmap string A) (name : string) (x y : A) :
  m !! name = Some x → dom (<[name := y]> m) = dom m.
Proof.
  intros Hx. rewrite dom_insert_L. apply subseteq_union_1_L.
  apply singleton_subseteq_l. by eapply elem_of_dom_2.
Qed.

Section Device.
Variable elapsed_time : Event → Event → Qc.

Abbreviation durations :=
  (comprehension (CudaEventTimer.get_elapsed_msec elapsed_time)).

Lemma durations_total l : Forall complete l → ∃ ds, durations l = Ok ds.
Proof.
  induction 1 as [|m l [e He] _ [ds IH]]; [by eexists|].
  cbn [comprehension]. unfold CudaEventTimer.get_elapsed_msec at 1.
  rewrite He, IH. by eexists.
Qed.

Lemma elapsed_when_started (t : Timer.t) (w : World) (reset : bool) ds :
  Timer.started_ t = true →
  durations (Timer.event_timers t
             ++ [CudaEventTimer.__init__ (Timer.start_event t) (next_event w)])
    = Ok ds →
  Timer.elapsed elapsed_time reset (t, w) =
  (Ok (sum ds),
   (Timer.mk (Timer.name_ t) true [] (Some (S (next_event w)))
      (if reset then None else Some ds),
    tick (tick w))).
Proof.
  intros Hs Hd. destruct t as [name running timers held records].
  cbn [Timer.started_ Timer.event_timers Timer.start_event Timer.name_] in *.
  subst running. unfold_method.
  cbn -[comprehension CudaEventTimer.get_elapsed_msec]. rewrite Hd.
  destruct reset; done.
Qed.

Lemma elapsed_total (t : Timer.t) (w : World) (reset : bool) :
  wf_timer t →
  ∃ v t' w',
    Timer.elapsed elapsed_time reset (t, w) = (Ok v, (t', w')) ∧
    wf_timer t' ∧ rank w' = rank w ∧ log_out w' = log_out w.
Proof.
  intros [Hbuf Hrun]. destruct (Timer.started_ t) eqn:Hs.
  - destruct (durations_total
                (Timer.event_timers t
                 ++ [CudaEventTimer.__init__ (Timer.start_event t) (next_event w)]))
      as [ds Hds].
    { apply Forall_app. split; [done|]. apply Forall_singleton. by apply Hrun. }
    eexists _, _, _. split; [by apply elapsed_when_started|].
    split_and!; [|done|done]. split; [by apply Forall_nil|]. by eexists.
  - destruct (durations_total _ Hbuf) as [ds Hds].
    eexists _, _, _. split; [by apply elapsed_when_stopped|].
    split_and!; [|done|done].
    destruct reset; (split; [by apply Forall_nil|done]).
Qed.

Lemma on_timer_elapsed (name : string) (t : Timer.t) (s : state) (reset : bool) :
  s.1 !! name = Some t → wf_registry s.1 →
  ∃ v t' w',
    on_timer name (Timer.elapsed elapsed_time reset) s
      = (Ok v, (<[name := t']> s.1, w')) ∧
    wf_registry (<[name := t']> s.1) ∧
    rank w' = rank s.2 ∧ log_out w' = log_out s.2.
Proof.
  intros Ht Hwf.
  destruct (elapsed_total t s.2 reset) as (v & t' & w' & He & Hwf' & ? & ?).
  { by apply (Hwf name). }
  exists v, t', w'. unfold on_timer. rewrite Ht, He.
  split_and!; try done. by apply map_Forall_insert_2.
Qed.




Lemma log_loop (normalizer : Qc) (reset : bool) (names : list string) :
  ∀ (acc : string) (s : state), wf_registry s.1 →
  for_fold names acc
    (λ string name,
       present ← contains name;
       if present : bool then
         elapsed_ ← on_timer name (Timer.elapsed elapsed_time reset);
         mret (string +:+ " | " +:+ name +:+ ": "
                      +:+ format_2f (elapsed_ / normalizer))
       else mret string) s
  = (Ok (acc +:+ foldr (λ entry rest, segment normalizer entry +:+ rest) ""
                   (elapsed_values elapsed_time reset names s).1),
     (elapsed_values elapsed_time reset names s).2).
Proof.
  induction names as [|name names IH]; intros acc s Hwf.
  { cbn. by rewrite string_app_empty_r. }
  cbn [for_fold elapsed_values].
  unfold mbind at 1, M_bind. unfold mbind at 1, M_bind.
  unfold contains at 1, gets.
  destruct (decide (is_Some (s.1 !! name))) as [[t Ht]|Hno].
  - rewrite !bool_decide_eq_true_2 by by eexists.
    unfold mbind at 1, M_bind.
    destruct (on_timer_elapsed name t s reset Ht Hwf)
      as (v & t' & w' & -> & Hwf' & Hr & Hl).
    unfold mret at 1, M_ret. rewrite IH by done.
    destruct (elapsed_values elapsed_time reset names _) as [vals s'].
    cbn [fst snd foldr]. f_equal. f_equal.
    unfold segment at 2. cbn [fst snd]. by rewrite !string_app_assoc.
  - rewrite !bool_decide_eq_false_2 by done.
    unfold mret at 1, M_ret. by apply IH.
Qed.

End Device.

Lemma timer_a_cycles :
  cycles 3 (Timer.__init__ "a", fresh_world) = (Ok (), (timer_a, registry_a.2)).
Proof. reflexivity. Qed.

Lemma wf_registry_a : wf_registry registry_a.1.
Proof.
  apply map_Forall_singleton. split; [|done].
  unfold timer_a. cbn [Timer.event_timers intervals].
  repeat (apply Forall_cons_2; [by eexists|]). apply Forall_nil_2.
Qed.






(** ** [SynchronizedWallClockTimer.get_mean] *)

Lemma run_bind {S A B} (m : M S A) (f : A → M S B) (s : S) :
  (m ≫= f) s =
  match m s with
  | (Ok a, s') => f a s'
  | (Raise e, s') => (Raise e, s')
  end.
Proof. reflexivity. Qed.

Lemma run_ret {S A} (a : A) (s : S) : (mret a : M S A) s = (Ok a, s).
Proof. reflexivity. Qed.

Lemma requested_nil (D A : gset string) : A = A ∪ (list_to_set [] ∩ D).
Proof.
  apply set_eq. intros x.
  rewrite elem_of_union, elem_of_intersection, elem_of_list_to_set, elem_of_nil.
  tauto.
Qed.

Lemma requested_cons_present (D A : gset string) name names :
  name ∈ D →
  {[name]} ∪ A ∪ (list_to_set names ∩ D)
  = A ∪ (list_to_set (name :: names) ∩ D).
Proof.
  intros Hin. apply set_eq. intros x.
  rewrite !elem_of_union, !elem_of_intersection, !elem_of_list_to_set,
    elem_of_singleton, elem_of_cons.
  split; [intros [[->|?]|[? ?]]; tauto|intros [?|[[->|?] ?]]; tauto].
Qed.

Lemma requested_cons_absent (D A : gset string) name names :
  name ∉ D →
  A ∪ (list_to_set names ∩ D) = A ∪ (list_to_set (name :: names) ∩ D).
Proof.
  intros Hout. apply set_eq. intros x.
  rewrite !elem_of_union, !elem_of_intersection, !elem_of_list_to_set,
    elem_of_cons.
  split; [tauto|intros [?|[[->|?] ?]]; tauto].
Qed.

Lemma trim_mean_sort data p : (trim_mean (sort data) p).1 = (trim_mean data p).1.
Proof.
  unfold trim_mean. destruct (negb _); [done|].
  cbn [fst]. by rewrite length_sort, sort_idemp.
Qed.

Lemma trim_mean_tenth data : ∃ mu, trim_mean data tenth = (Ok mu, sort data).
Proof. eexists. by apply trim_mean_in_range. Qed.

Lemma mean_with_records (t : Timer.t) (w : World) data :
  Timer.elapsed_records t = Some data →
  Timer.mean (t, w) =
  ((trim_mean data tenth).1, (Timer.set_elapsed_records (Some (sort data)) t, w)).
Proof.
  intros Hd. unfold Timer.mean. unfold mbind at 1, M_bind, Timer.self, gets.
  cbn [fst]. rewrite Hd. fold tenth.
  destruct (trim_mean_tenth data) as [mu ->]. done.
Qed.

Lemma mean_without_records (t : Timer.t) (w : World) :
  Timer.elapsed_records t = None →
  Timer.mean (t, w) = (Raise TypeError, (t, w)).
Proof.
  intros Hd. unfold Timer.mean. unfold mbind at 1, M_bind, Timer.self, gets.
  cbn [fst]. by rewrite Hd.
Qed.

Lemma pf_div_positive x (b : Qc) : 0 < b → ∃ v, pf_div x (Finite b) = Ok v.
Proof.
  intros Hb. unfold pf_div.
  rewrite (proj2 (Qc_eqb_false b 0)); [by destruct x; eexists|].
  intros ->. by apply (Qclt_not_eq 0 0).
Qed.

Abbreviation get_mean_body normalizer :=
  (λ (means : gmap string pyfloat) (name : string),
     present ← contains name;
     if present : bool then
       m ← on_timer name Timer.mean;
       elapsed_ ← lift (pf_div (pf_mul m (Finite (Qc_of_Z 1000)))
                               (Finite normalizer));
       mret (<[name := elapsed_]> means)
     else mret means).

Lemma sorted_from_step (r0 r : gmap string Timer.t) name t data :
  sorted_from r0 r → r !! name = Some t → Timer.elapsed_records t = Some data →
  sorted_from r0 (<[name := Timer.set_elapsed_records (Some (sort data)) t]> r).
Proof.
  intros [Hdom Hrel] Ht Hd. split.
  - by rewrite (dom_insert_present _ _ t).
  - intros name' t'. destruct (decide (name = name')) as [<-|Hne].
    + rewrite lookup_insert_eq. intros [= <-].
      destruct (Hrel name t Ht) as (t0 & Ht0 & [Heq|(data0 & Hd0 & Heq)]).
      * exists t0. split; [done|]. right. exists data. split; [congruence|done].
      * exists t0. split; [done|]. right. exists data0. split; [done|].
        cbn. rewrite Hd in Heq. injection Heq as ->. by rewrite sort_idemp.
    + rewrite lookup_insert_ne by done. apply Hrel.
Qed.

Lemma get_mean_loop (normalizer : Qc) (r0 : gmap string Timer.t)
    (names : list string) :
  0 < normalizer →
  (∀ name t, name ∈ names → r0 !! name = Some t →
             is_Some (Timer.elapsed_records t)) →
  ∀ (acc : gmap string pyfloat) (s : state), sorted_from r0 s.1 →
  ∃ means s',
    for_fold names acc (get_mean_body normalizer) s = (Ok means, s') ∧
    dom means = dom acc ∪ (list_to_set names ∩ dom r0) ∧
    ∀ name v, means !! name = Some v →
      acc !! name = Some v ∨
      (name ∈ names ∧ ∃ t data, r0 !! name = Some t ∧
         Timer.elapsed_records t = Some data ∧ mean_entry normalizer data v).
Proof.
  intros Hn. induction names as [|name names IH]; intros Hrec acc s Hs.
  { exists acc, s. split_and!; [done|apply requested_nil|by left]. }
  cbn [for_fold]. rewrite !run_bind. unfold contains at 1, gets.
  assert (∀ name' t, name' ∈ names → r0 !! name' = Some t →
                     is_Some (Timer.elapsed_records t)) as Hrec'.
  { intros ????. eapply Hrec; [by right|done]. }
  destruct (s.1 !! name) as [t|] eqn:Ht.
  - rewrite bool_decide_eq_true_2 by by eexists.
    destruct Hs as [Hdom Hrel].
    destruct (Hrel name t Ht) as (t0 & Ht0 & Hrecs).
    destruct (Hrec name t0 (list_elem_of_here _ _) Ht0) as [data0 Hd0].
    assert (∃ data, Timer.elapsed_records t = Some data ∧
                    (trim_mean data tenth).1 = (trim_mean data0 tenth).1)
      as (data & Hd & Hsame).
    { destruct Hrecs as [Heq|(d & Hd & Heq)].
      - exists data0. split; [congruence|done].
      - exists (sort data0). split; [congruence|apply trim_mean_sort]. }
    rewrite run_bind. unfold on_timer at 1. rewrite Ht.
    rewrite (mean_with_records t s.2 data Hd).
    destruct (trim_mean_tenth data) as [mu Hmu]. rewrite Hmu. cbn [fst].
    rewrite run_bind. unfold lift at 1.
    destruct (pf_div_positive (pf_mul mu (Finite (Qc_of_Z 1000))) normalizer Hn)
      as [v Hv].
    rewrite Hv, run_ret.
    destruct (IH Hrec' (<[name := v]> acc)
                (<[name := Timer.set_elapsed_records (Some (sort data)) t]> s.1,
                 s.2))
      as (means & s' & -> & Hdm & Hval).
    { by apply sorted_from_step. }
    exists means, s'. split_and!; [done| |].
    + rewrite Hdm, dom_insert_L. apply requested_cons_present.
      by eapply elem_of_dom_2.
    + intros name' v' Hlook. destruct (Hval name' v' Hlook) as [Hacc|Hin].
      * destruct (decide (name = name')) as [<-|Hne].
        -- rewrite lookup_insert_eq in Hacc. injection Hacc as <-.
           right. split; [by left|]. exists t0, data0. split_and!; [done..|].
           exists mu. split; [|done]. by rewrite <-Hsame, Hmu.
        -- rewrite lookup_insert_ne in Hacc by done. by left.
      * right. destruct Hin as [? ?]. split; [by right|done].
  - rewrite bool_decide_eq_false_2 by by intros [? ?].
    rewrite run_ret.
    destruct (IH Hrec' acc s Hs) as (means & s' & -> & Hdm & Hval).
    exists means, s'. split_and!; [done| |].
    + rewrite Hdm. destruct Hs as [Hdom _]. apply requested_cons_absent.
      rewrite <-Hdom. by apply not_elem_of_dom.
    + intros name' v' Hlook. destruct (Hval name' v' Hlook) as [Hacc|[? ?]].
      * by left.
      * right. split; [by right|done].
Qed.

Lemma get_mean_loop_raises (normalizer : Qc) (r0 : gmap string Timer.t)
    (names : list string) :
  0 < normalizer →
  (∃ name t, name ∈ names ∧ r0 !! name = Some t ∧
             Timer.elapsed_records t = None) →
  ∀ (acc : gmap string pyfloat) (s : state), sorted_from r0 s.1 →
  (for_fold names acc (get_mean_body normalizer) s).1 = Raise TypeError.
Proof.
  intros Hn. induction names as [|name names IH];
    intros (bad & tbad & Hin & Hbad & Hnone) acc s Hs.
  { by apply elem_of_nil in Hin. }
  cbn [for_fold]. rewrite !run_bind. unfold contains at 1, gets.
  destruct (s.1 !! name) as [t|] eqn:Ht.
  - rewrite bool_decide_eq_true_2 by by eexists.
    rewrite run_bind. unfold on_timer at 1. rewrite Ht.
    destruct (Timer.elapsed_records t) as [data|] eqn:Hd.
    + rewrite (mean_with_records t s.2 data Hd).
      destruct (trim_mean_tenth data) as [mu Hmu]. rewrite Hmu. cbn [fst].
      rewrite run_bind. unfold lift at 1.
      destruct (pf_div_positive (pf_mul mu (Finite (Qc_of_Z 1000))) normalizer Hn)
        as [v ->].
      rewrite run_ret. apply IH; [|by apply sorted_from_step].
      exists bad, tbad. split_and!; [|done..].
      apply elem_of_cons in Hin as [->|Hin]; [|done].
      destruct Hs as [_ Hrel].
      destruct (Hrel name t Ht) as (t0 & Ht0 & [Heq|(d & Hd0 & _)]);
        congruence.
    + by rewrite (mean_without_records t s.2 Hd).
  - rewrite bool_decide_eq_false_2 by by intros [? ?].
    rewrite run_ret. apply IH; [|done].
    exists bad, tbad. split_and!; [|done..].
    apply elem_of_cons in Hin as [->|Hin]; [|done].
    destruct Hs as [Hdom _]. apply not_elem_of_dom in Ht.
    rewrite Hdom in Ht. by apply elem_of_dom_2 in Hbad.
Qed.

Lemma sorted_from_refl (r : gmap string Timer.t) : sorted_from r r.
Proof. split; [done|]. intros name t Ht. exists t. by split; [|left]. Qed.

(** C8.  For a positive normalizer: if every requested timer of
    the registry holds recorded durations (an [elapsed] has run since the
    last reset), [get_mean] returns a mapping whose keys are exactly the
    requested names the registry has, each mapped to
    [mean() * 1000 / normalizer], where [mean()] is [trim_mean] of the
    recorded durations with fraction 0.1; if some requested timer of the
    registry holds none, the call raises [TypeError]. *)
Theorem C8_get_mean_of_recorded (names : list string) (normalizer : Qc)
    (reset : bool) (s : state) :
  0 < normalizer →
  let requested name t := name ∈ names ∧ s.1 !! name = Some t in
  ((∀ name t, requested name t → is_Some (Timer.elapsed_records t)) →
   ∃ means s',
     get_mean names normalizer reset s = (Ok means, s') ∧
     (∀ name, is_Some (means !! name)
              ↔ name ∈ names ∧ is_Some (s.1 !! name)) ∧
     (∀ name t data, requested name t →
        Timer.elapsed_records t = Some data →
        ∃ v, means !! name = Some v ∧ mean_entry normalizer data v)) ∧
  ((∃ name t, requested name t ∧ Timer.elapsed_records t = None) →
   (get_mean names normalizer reset s).1 = Raise TypeError).
Proof.
  intros Hn requested.
  assert (∀ k, (get_mean names normalizer reset s) = k →
               for_fold names ∅ (get_mean_body normalizer) s = k) as Hrun.
  { intros k <-. unfold get_mean. rewrite run_bind. unfold assert.
    by rewrite (proj2 (Qc_ltb_true 0 normalizer) Hn), run_ret. }
  split.
  - intros Hrec.
    destruct (get_mean_loop normalizer s.1 names Hn)
      with (acc := ∅ : gmap string pyfloat) (s := s)
      as (means & s' & Hloop & Hdom & Hval).
    { intros name t ??. by apply (Hrec name t). }
    { apply sorted_from_refl. }
    exists means, s'.
    assert (∀ name, is_Some (means !! name)
                    ↔ name ∈ names ∧ is_Some (s.1 !! name)) as Hkeys.
    { intros name. rewrite <-!elem_of_dom, Hdom, dom_empty_L.
      rewrite elem_of_union, elem_of_intersection, elem_of_list_to_set.
      pose proof (not_elem_of_empty (C:=gset string) name). tauto. }
    split_and!; [|done|].
    + rewrite <-Hloop. symmetry. by apply Hrun.
    + intros name t data [Hin Ht] Hd.
      destruct (proj2 (Hkeys name)) as [v Hv]; [by split; [|eexists]|].
      exists v. split; [done|].
      destruct (Hval name v Hv) as [Hacc|(_ & t' & data' & Ht' & Hd' & Hentry)].
      * by rewrite lookup_empty in Hacc.
      * congruence.
  - intros (name & t & [Hin Ht] & Hnone).
    rewrite <-(Hrun _ eq_refl).
    apply (get_mean_loop_raises normalizer s.1); [done| |apply sorted_from_refl].
    by exists name, t.
Qed.

Lemma registry_a_read_elapsed :
  (on_timer "a" (Timer.elapsed three_intervals false) registry_a).2
  = registry_a_read.
Proof.
  unfold on_timer, registry_a. cbn [fst snd]. rewrite lookup_singleton_eq.
  rewrite (elapsed_when_stopped three_intervals timer_a _ false
             [Qc_of_Z 10; Qc_of_Z 12; Qc_of_Z 100]) by reflexivity.
  cbn [snd]. unfold registry_a_read. by rewrite insert_singleton_eq.
Qed.

Lemma mean_entry_three v :
  mean_entry 1 [Qc_of_Z 10; Qc_of_Z 12; Qc_of_Z 100] v →
  v = Finite (Q2Qc (122000 # 3)).
Proof.
  intros (mu & Hmu & Hv). vm_compute in Hmu. injection Hmu as <-.
  vm_compute in Hv. injection Hv as <-.
  first [reflexivity | f_equal; by apply Qc_is_canon].
Qed.

(** C8 on the registry of "a" after [elapsed(reset=False)], asked for "a"
    and "b". *)
Lemma C8_witness :
  ∃ means s',
    get_mean ["a"; "b"] 1 true registry_a_read = (Ok means, s') ∧
    (is_Some (means !! "a") ∧ ¬ is_Some (means !! "b")) ∧
    means !! "a" = Some (Finite (Q2Qc (122000 # 3))).
Proof.
  destruct (C8_get_mean_of_recorded ["a"; "b"] 1 true registry_a_read)
    as [Hok _]; [done|].
  destruct Hok as (means & s' & Hrun & Hkeys & Hval).
  - intros name t [_ Ht]. unfold registry_a_read in Ht. cbn [fst] in Ht.
    apply lookup_singleton_Some in Ht as [_ <-]. by eexists.
  - exists means, s'. split_and!; [done| | |].
    + apply Hkeys. split; [by left|]. by eexists.
    + intros [_ [t Ht]]%Hkeys. unfold registry_a_read in Ht. cbn [fst] in Ht.
      by apply lookup_singleton_Some in Ht as [? _].
    + destruct (Hval "a" timer_a_read [Qc_of_Z 10; Qc_of_Z 12; Qc_of_Z 100])
        as (v & Hv & Hentry); [split; [by left|done]|done|].
      by rewrite Hv, (mean_entry_three v Hentry).
Defined.

(** C8 does not hold of every registry.  The normalizer is positive and "a" is registered,
    yet [get_mean(["a"])] returns no mapping: the timer has no recorded
    durations, and the call raises [TypeError]. *)
Lemma C8_get_mean_raises_without_records :
  0 < 1 ∧
  "a" ∈ ["a"] ∧ is_Some (registry_a.1 !! "a") ∧
  (get_mean ["a"] 1 true registry_a).1 = Raise TypeError ∧
  ¬ ∃ means, (get_mean ["a"] 1 true registry_a).1 = Ok means.
Proof.
  assert ((get_mean ["a"] 1 true registry_a).1 = Raise TypeError) as H.
  { vm_compute. reflexivity. }
  split_and!; [done|by left|by eexists|done|].
  intros [means Hm]. congruence.
Qed.

(** ** [ThroughputTimer] *)

Ltac unfold_tt :=
  unfold TT.stop, TT.start, TT.update_epoch_count, TT._init_timer, TT.logging,
    TT.self, TT.assign, when, lift, gets, modify, mbind, mret, M_bind, M_ret.

Lemma start_state now (s : TT.state) :
  TT.start now s = (Ok (), (after_start now s.1, s.2)).
Proof.
  destruct s as [t out]. unfold_tt. cbn. unfold after_start.
  by destruct (_ >=? _)%Z.
Qed.

Lemma stop_state now report_speed (s : TT.state) :
  (TT.stop now report_speed s).2.1 = after_stop now s.1.
Proof.
  destruct s as [[? ? running ? ? ? ? ? ? ? ? monitor ?] out].
  unfold after_stop. unfold_tt.
  cbn -[TT.avg_samples_per_sec py_mod].
  destruct running; cbn -[TT.avg_samples_per_sec py_mod]; [|done].
  destruct (_ >? _)%Z; cbn -[TT.avg_samples_per_sec py_mod]; [|done].
  destruct (py_mod _ _) as [r|]; cbn -[TT.avg_samples_per_sec]; [|done].
  destruct (r =? 0)%Z; cbn -[TT.avg_samples_per_sec]; [|done].
  destruct report_speed; cbn -[TT.avg_samples_per_sec].
  - destruct (TT.avg_samples_per_sec _); cbn; [|done].
    by destruct monitor.
  - by destruct monitor.
Qed.

Lemma update_epoch_count_state (s : TT.state) :
  TT.total_elapsed_time (TT.update_epoch_count s).2.1 = TT.total_elapsed_time s.1 ∧
  TT.total_step_count (TT.update_epoch_count s).2.1 = TT.total_step_count s.1 ∧
  TT.start_step (TT.update_epoch_count s).2.1 = TT.start_step s.1.
Proof. by destruct s. Qed.

(** What every call keeps, and what it does to the elapsed time. *)
Lemma perform_elapsed (c : TT.call) (s : TT.state) :
  let s' := (TT.perform c s).2 in
  TT.start_step s'.1 = TT.start_step s.1 ∧
  (TT.total_step_count s.1 ≤ TT.total_step_count s'.1)%Z ∧
  match c with
  | TT.Stop now _ =>
      if TT.started s.1 && (TT.total_step_count s.1 + 1 >? TT.start_step s.1)%Z
      then TT.total_step_count s'.1 = (TT.total_step_count s.1 + 1)%Z ∧
           TT.total_elapsed_time s'.1
           = TT.total_elapsed_time s.1 + (now - TT.start_time s.1)
      else TT.total_elapsed_time s'.1 = TT.total_elapsed_time s.1
  | _ => TT.total_elapsed_time s'.1 = TT.total_elapsed_time s.1 ∧
         TT.total_step_count s'.1 = TT.total_step_count s.1
  end.
Proof.
  cbv zeta. destruct c as [now|now report_speed|]; cbn [TT.perform].
  - rewrite start_state. by split_and!.
  - rewrite stop_state. unfold after_stop.
    destruct (TT.started s.1); cbn [negb andb]; [|by split_and!].
    destruct (_ >? _)%Z; cbn; split_and!; try done; lia.
  - destruct (update_epoch_count_state s) as (-> & -> & ->). by split_and!.
Qed.

Lemma run_invariant (P : TT.state → Prop) :
  (∀ c s, P s → P (TT.perform c s).2) →
  ∀ calls s, P s → P (TT.run calls s).
Proof.
  intros Hstep calls. unfold TT.run.
  induction calls as [|c calls IH]; intros s Hs; [done|].
  cbn [foldl]. by apply IH, Hstep.
Qed.

Lemma init_state psutil batch workers first every monitor t0 :
  TT.__init__ psutil batch workers first every monitor = Ok t0 →
  t0 = TT.mk 0 0 false (default 1%Z batch) workers first 0 0 0 0 every
         monitor false.
Proof. unfold TT.__init__. destruct (_ && _); [done|]. by intros [= <-]. Qed.

Lemma reached_in_warmup (calls : list TT.call)
    psutil batch workers first every monitor t0 :
  TT.__init__ psutil batch workers first every monitor = Ok t0 →
  TT.start_step (TT.run calls (t0, [])).1 = first ∧
  ((TT.total_step_count (TT.run calls (t0, [])).1 ≤ first)%Z →
   TT.total_elapsed_time (TT.run calls (t0, [])).1 = 0).
Proof.
  intros Ht0. apply init_state in Ht0 as ->.
  apply (run_invariant
           (λ s, TT.start_step s.1 = first ∧
                 ((TT.total_step_count s.1 ≤ first)%Z →
                  TT.total_elapsed_time s.1 = 0))); [|done].
  clear. intros c s [Hfirst Hwarm].
  destruct (perform_elapsed c s) as (Hss & Hmono & H).
  split; [congruence|]. intros Hle.
  destruct c as [now|now report_speed|].
  - destruct H as [-> Htot]. apply Hwarm. lia.
  - destruct (TT.started s.1); cbn [andb] in H.
    + destruct (Z.gtb_spec (TT.total_step_count s.1 + 1) (TT.start_step s.1)).
      * destruct H as [Htot _]. lia.
      * rewrite H. apply Hwarm. lia.
    + rewrite H. apply Hwarm. lia.
  - destruct H as [-> Htot]. apply Hwarm. lia.
Qed.

(** C4.  A call changes [total_elapsed_time] only when it is a [stop] of a
    running tracker whose incremented [total_step_count] exceeds
    [start_step], and then by [now - start_time]; [start],
    [update_epoch_count], a [stop] while not running and a [stop] inside the
    warm-up window leave it as it was.  Hence in every state reached from
    the constructor by any sequence of calls, [start_step] is the one given,
    and [total_elapsed_time] is 0 as long as [total_step_count] has not
    passed it. *)
Theorem C4_warmup_never_timed (c : TT.call) (s : TT.state)
    (calls : list TT.call) :
  let s' := (TT.perform c s).2 in
  match c with
  | TT.Stop now _ =>
      if TT.started s.1 && (TT.total_step_count s.1 + 1 >? TT.start_step s.1)%Z
      then TT.total_step_count s'.1 = (TT.total_step_count s.1 + 1)%Z ∧
           TT.total_elapsed_time s'.1
           = TT.total_elapsed_time s.1 + (now - TT.start_time s.1)
      else TT.total_elapsed_time s'.1 = TT.total_elapsed_time s.1
  | _ => TT.total_elapsed_time s'.1 = TT.total_elapsed_time s.1
  end ∧
  (∀ psutil batch workers first every monitor t0,
     TT.__init__ psutil batch workers first every monitor = Ok t0 →
     let reached := (TT.run calls (t0, [])).1 in
     TT.start_step reached = first ∧
     ((TT.total_step_count reached ≤ first)%Z →
      TT.total_elapsed_time reached = 0)).
Proof.
  cbv zeta. split.
  - destruct (perform_elapsed c s) as (_ & _ & H).
    destruct c; [by destruct H|done|by destruct H].
  - intros psutil batch workers first every monitor t0 Ht0.
    by eapply reached_in_warmup.
Qed.

(** C4 on the tracker of the scenario: after two timed-looking steps of
    0.1 s, both inside the warm-up, no time has been accumulated. *)
Lemma C4_witness :
  TT.total_step_count
    (TT.run (training [0; 1] (Q2Qc (1 # 10))) (tracker_32, [])).1 = 2%Z ∧
  TT.total_elapsed_time
    (TT.run (training [0; 1] (Q2Qc (1 # 10))) (tracker_32, [])).1 = 0.
Proof.
  split; [reflexivity|].
  destruct (C4_warmup_never_timed TT.UpdateEpochCount (tracker_32, [])
              (training [0; 1] (Q2Qc (1 # 10)))) as [_ H].
  by apply (H true (Some 32%Z) 4%Z 2%Z 50%Z false tracker_32 eq_refl).
Defined.

Lemma one_cycle now d (s : TT.state) :
  TT.started s.1 = false →
  let s' := TT.run [TT.Start now; TT.Stop (now + d) true] s in
  TT.started s'.1 = false ∧
  TT.total_step_count s'.1 = (TT.total_step_count s.1 + 1)%Z ∧
  TT.start_step s'.1 = TT.start_step s.1 ∧
  TT.batch_size s'.1 = TT.batch_size s.1 ∧
  TT.num_workers s'.1 = TT.num_workers s.1 ∧
  TT.total_elapsed_time s'.1
  = TT.total_elapsed_time s.1
    + (if (TT.total_step_count s.1 + 1 >? TT.start_step s.1)%Z then d else 0).
Proof.
  intros Hs. cbv zeta. unfold TT.run. cbn [foldl TT.perform].
  rewrite stop_state, start_state. cbn [fst snd].
  unfold after_stop, after_start. cbn.
  split_and!; try done.
  destruct (Z.gtb_spec (TT.total_step_count s.1 + 1) (TT.start_step s.1)).
  - destruct (Z.geb_spec (TT.total_step_count s.1) (TT.start_step s.1)); [|lia].
    ring.
  - by rewrite Qcplus_0_r.
Qed.


Lemma Qc_of_Z_nonzero (n : Z) : n ≠ 0%Z → Qc_of_Z n ≠ 0.
Proof. intros Hn H. apply Hn. apply Z2Qc_inj. by rewrite Z2Qc_inj_0. Qed.

Lemma Qcdiv_nonzero (x y : Qc) : x ≠ 0 → y ≠ 0 → x / y ≠ 0.
Proof.
  intros Hx Hy H. apply Hx.
  rewrite <-(Qcmult_div_r x y) by done. rewrite H. ring.
Qed.

Lemma truediv_nonzero (x y : Qc) : y ≠ 0 → truediv x y = Ok (x / y).
Proof. intros Hy. unfold truediv. by rewrite (proj2 (Qc_eqb_false y 0)). Qed.



Lemma avg_division (s : TT.t) :
  (0 < TT.total_step_count s)%Z →
  TT.total_step_count s ≠ TT.start_step s →
  TT.total_elapsed_time s ≠ 0 →
  TT.avg_samples_per_sec s
  = Ok (Finite (Qc_of_Z (TT.batch_size s * TT.num_workers s)
                / (TT.total_elapsed_time s
                   / Qc_of_Z (TT.total_step_count s - TT.start_step s)))).
Proof.
  intros Hpos Hoff Htet. unfold TT.avg_samples_per_sec.
  destruct (Z.gtb_spec (TT.total_step_count s) 0); [|lia].
  assert (Qc_of_Z (TT.total_step_count s - TT.start_step s) ≠ 0) as Hnz.
  { apply Qc_of_Z_nonzero. lia. }
  rewrite (truediv_nonzero _ _ Hnz).
  by rewrite truediv_nonzero by by apply Qcdiv_nonzero.
Qed.









(** ** Well-formed timers *)

(** The constructor makes a well-formed timer and every method keeps it
    well formed, whether it returns or raises. *)
Lemma wf_timer_init name : wf_timer (Timer.__init__ name).
Proof. split; [apply Forall_nil_2|done]. Qed.

Lemma wf_timer_start (t : Timer.t) (w : World) :
  wf_timer t → wf_timer (Timer.start (t, w)).2.1.
Proof.
  intros Hwf. pose proof Hwf as [Hbuf Hrun].
  destruct (Timer.started_ t) eqn:Hs.
  - by rewrite start_when_started.
  - rewrite start_when_stopped by done. split; [done|]. by eexists.
Qed.

Lemma wf_timer_stop (t : Timer.t) (w : World) reset record :
  wf_timer t → wf_timer (Timer.stop reset record (t, w)).2.1.
Proof.
  intros Hwf. pose proof Hwf as [Hbuf Hrun].
  destruct (Timer.started_ t) eqn:Hs.
  - rewrite stop_when_started by done. split; [|done].
    apply Forall_app. split; [done|]. apply Forall_singleton. by apply Hrun.
  - by rewrite stop_when_stopped.
Qed.

Lemma wf_timer_reset (t : Timer.t) (w : World) :
  wf_timer (Timer.reset (t, w)).2.1.
Proof. split; [apply Forall_nil_2|done]. Qed.

Lemma wf_timer_elapsed elapsed_time (t : Timer.t) (w : World) reset :
  wf_timer t → wf_timer (Timer.elapsed elapsed_time reset (t, w)).2.1.
Proof.
  intros Hwf.
  by destruct (elapsed_total elapsed_time t w reset Hwf)
    as (v & t' & w' & -> & ? & _).
Qed.

Lemma wf_timer_mean (t : Timer.t) (w : World) :
  wf_timer t → wf_timer (Timer.mean (t, w)).2.1.
Proof.
  intros Hwf. destruct (Timer.elapsed_records t) as [data|] eqn:Hd.
  - by rewrite (mean_with_records t w data Hd).
  - by rewrite mean_without_records.
Qed.

(** ** [Timer]: reset, elapsed and mean on any timer *)

Lemma reset_state (t : Timer.t) (w : World) :
  Timer.reset (t, w) = (Ok (), (Timer.mk (Timer.name_ t) false [] None None, w)).
Proof. reflexivity. Qed.

(** [elapsed] on any timer, well formed or not. *)
Lemma elapsed_cases elapsed_time (reset : bool) (t : Timer.t) (w : World) :
  let buffer :=
    if Timer.started_ t
    then Timer.event_timers t
         ++ [CudaEventTimer.__init__ (Timer.start_event t) (next_event w)]
    else Timer.event_timers t in
  Timer.elapsed elapsed_time reset (t, w) =
  match comprehension (CudaEventTimer.get_elapsed_msec elapsed_time) buffer with
  | Raise e =>
      (Raise e,
       if Timer.started_ t
       then (Timer.mk (Timer.name_ t) false buffer None
               (Timer.elapsed_records t), tick w)
       else (t, w))
  | Ok ds =>
      (Ok (sum ds),
       if Timer.started_ t
       then (Timer.mk (Timer.name_ t) true [] (Some (S (next_event w)))
               (if reset then None else Some ds), tick (tick w))
       else (if reset then Timer.mk (Timer.name_ t) false [] None None
             else Timer.mk (Timer.name_ t) false [] (Timer.start_event t)
                    (Some ds), w))
  end.
Proof.
  cbv zeta. destruct (Timer.started_ t) eqn:Hs.
  - destruct (comprehension _ _) as [ds|e] eqn:Hd.
    + by apply elapsed_when_started.
    + destruct t as [name running timers held records].
      cbn [Timer.started_ Timer.event_timers Timer.start_event Timer.name_
           Timer.elapsed_records] in *.
      subst running. unfold_method.
      cbn -[comprehension CudaEventTimer.get_elapsed_msec]. by rewrite Hd.
  - destruct (comprehension _ _) as [ds|e] eqn:Hd.
    + by apply elapsed_when_stopped.
    + destruct t as [name running timers held records].
      cbn [Timer.started_ Timer.event_timers Timer.start_event Timer.name_
           Timer.elapsed_records] in *.
      subst running. unfold_method.
      cbn -[comprehension CudaEventTimer.get_elapsed_msec]. by rewrite Hd.
Qed.

(** X1.  [reset()] followed by [elapsed(reset)] answers 0 on any timer, started
    or not, whatever it had buffered or recorded.  The timer is left stopped,
    with nothing buffered, with no records if [reset] and an empty list of
    records otherwise; no event is taken. *)
Theorem X1_reset_then_elapsed_is_zero elapsed_time (t : Timer.t) (w : World)
    (reset : bool) :
  (Timer.reset;; Timer.elapsed elapsed_time reset) (t, w)
  = (Ok 0,
     (Timer.mk (Timer.name_ t) false [] None (if reset then None else Some []),
      w)).
Proof.
  rewrite run_bind, reset_state.
  rewrite (elapsed_when_stopped elapsed_time _ w reset []) by done.
  by destruct reset.
Qed.

(** X2.  [elapsed] on a running timer whose buffered intervals the device
    reports as [buffered]: the interval in flight is closed with a new event,
    the answer is the sum of the buffered durations and of the one in flight,
    and the timer is started again on the next event, so two events are
    taken.  The buffer is drained, and the records are the durations just
    read unless [reset]. *)
Theorem X2_elapsed_while_running elapsed_time (t : Timer.t) (w : World)
    (reset : bool) (held : Event) (buffered : list Qc) :
  Timer.started_ t = true →
  Timer.start_event t = Some held →
  comprehension (CudaEventTimer.get_elapsed_msec elapsed_time)
    (Timer.event_timers t) = Ok buffered →
  let in_flight := elapsed_time held (next_event w) in
  Timer.elapsed elapsed_time reset (t, w)
  = (Ok (sum buffered + in_flight),
     (Timer.mk (Timer.name_ t) true [] (Some (S (next_event w)))
        (if reset then None else Some (buffered ++ [in_flight])),
      tick (tick w))).
Proof.
  intros Hs Hheld Hb. cbv zeta.
  rewrite (elapsed_when_started elapsed_time t w reset
             (buffered ++ [elapsed_time held (next_event w)]) Hs).
  - by rewrite sum_snoc.
  - apply durations_app; [done|]. rewrite Hheld. reflexivity.
Qed.

Lemma X2_witness :
  Timer.elapsed three_intervals false
    (Timer.mk "forward" true (intervals 0%nat 1) (Some 2%nat) None,
     {| next_event := 3%nat; rank := 0%Z; log_out := [] |})
  = (Ok (Qc_of_Z 10 + Qc_of_Z 12),
     (Timer.mk "forward" true [] (Some 4%nat)
        (Some [Qc_of_Z 10; Qc_of_Z 12]),
      {| next_event := 5%nat; rank := 0%Z; log_out := [] |})).
Proof.
  apply (X2_elapsed_while_running three_intervals
           (Timer.mk "forward" true (intervals 0%nat 1) (Some 2%nat) None)
           {| next_event := 3%nat; rank := 0%Z; log_out := [] |} false 2%nat
           [Qc_of_Z 10]); reflexivity.
Defined.

(** X3.  The [reset] argument of [elapsed] changes no answer: on any timer
    [elapsed(reset=True)] and [elapsed(reset=False)] return or raise the
    same, take the same events and leave the same name, started flag and
    buffer.  They can differ in [elapsed_records] only, and in nothing when
    they raise. *)
Theorem X3_reset_flag_changes_no_answer elapsed_time (t : Timer.t) (w : World) :
  let with_reset := Timer.elapsed elapsed_time true (t, w) in
  let without := Timer.elapsed elapsed_time false (t, w) in
  with_reset.1 = without.1 ∧
  with_reset.2.2 = without.2.2 ∧
  Timer.name_ with_reset.2.1 = Timer.name_ without.2.1 ∧
  Timer.started_ with_reset.2.1 = Timer.started_ without.2.1 ∧
  Timer.event_timers with_reset.2.1 = Timer.event_timers without.2.1 ∧
  (∀ e, with_reset.1 = Raise e → with_reset.2 = without.2).
Proof.
  cbv zeta. rewrite !elapsed_cases.
  destruct (comprehension _ _) as [ds|e]; destruct (Timer.started_ t);
    cbn; split_and!; done.
Qed.

Lemma drop_answer_snd {S A} (m : M S A) (s : S) :
  ((m;; mret tt) s).2 = (m s).2.
Proof. rewrite run_bind. by destruct (m s) as [[a|e] s']. Qed.

Lemma timer_inv_wf name t : timer_inv name t → wf_timer t.
Proof. intros (_ & Hrun & Hbuf). split; [done|]. apply Hrun. Qed.

Lemma timer_inv_mk name running buffer held records :
  (running = true ↔ is_Some held) → Forall complete buffer →
  timer_inv name (Timer.mk name running buffer held records).
Proof. intros Hrun Hbuf. split; [done|]. by split. Qed.

(** Every call keeps the invariant, the rank and the log, and never takes
    the device back to an earlier event. *)
Lemma timer_perform_inv elapsed_time name (c : timer_call) (t : Timer.t)
    (w : World) :
  timer_inv name t →
  let s' := (timer_perform elapsed_time c (t, w)).2 in
  timer_inv name s'.1 ∧
  (next_event w ≤ next_event s'.2)%nat ∧
  rank s'.2 = rank w ∧ log_out s'.2 = log_out w.
Proof.
  intros Hinv. pose proof Hinv as (Hname & Hrun & Hbuf). cbv zeta.
  assert (false = true ↔ is_Some (None : option Event))
    as Hoff by (split; [done|by intros [? ?]]).
  assert (∀ e : Event, true = true ↔ is_Some (Some e)) as Hon
    by (split; [by eexists|done]).
  destruct c as [| | |reset|]; cbn [timer_perform].
  - destruct (Timer.started_ t) eqn:Hs.
    + rewrite start_when_started by done. cbn. by split_and!.
    + rewrite start_when_stopped by done. cbn.
      split_and!; [|lia|done|done]. rewrite Hname. by apply timer_inv_mk.
  - destruct (Timer.started_ t) eqn:Hs.
    + rewrite stop_when_started by done. cbn.
      split_and!; [|lia|done|done]. rewrite Hname.
      apply timer_inv_mk; [exact Hoff|].
      apply Forall_app. split; [done|]. apply Forall_singleton. by apply Hrun.
    + rewrite stop_when_stopped by done. cbn. by split_and!.
  - rewrite reset_state. cbn. split_and!; [|lia|done|done]. rewrite Hname.
    apply timer_inv_mk; [exact Hoff|apply Forall_nil_2].
  - rewrite drop_answer_snd, elapsed_cases.
    destruct (Timer.started_ t) eqn:Hs.
    + destruct (durations_total elapsed_time
                  (Timer.event_timers t
                   ++ [CudaEventTimer.__init__ (Timer.start_event t)
                         (next_event w)])) as [ds ->].
      { apply Forall_app. split; [done|]. apply Forall_singleton. by apply Hrun. }
      cbn. split_and!; [|lia|done|done]. rewrite Hname.
      apply timer_inv_mk; [done|apply Forall_nil_2].
    + destruct (durations_total elapsed_time _ Hbuf) as [ds ->].
      assert (Timer.start_event t = None) as Hnone.
      { destruct (Timer.start_event t) eqn:He; [|done].
        assert (false = true) by (apply Hrun; by eexists). done. }
      cbn. split_and!; [|lia|done|done]. rewrite Hname, Hnone.
      destruct reset; (apply timer_inv_mk; [exact Hoff|apply Forall_nil_2]).
  - rewrite drop_answer_snd.
    destruct (Timer.elapsed_records t) as [data|] eqn:Hd.
    + rewrite (mean_with_records t w data Hd). cbn. by split_and!.
    + rewrite (mean_without_records t w Hd). cbn. by split_and!.
Qed.

(** X4.  Whatever calls (start, stop, reset, elapsed, mean; failed ones
    included) are made on a timer that comes from the constructor: it keeps
    its name, it is started exactly when it holds a start event, every
    buffered measurement has both of its events, events are only ever taken,
    the rank and the log are untouched, and [elapsed] does not raise. *)
Theorem X4_timer_invariant elapsed_time (name : string) (w : World)
    (calls : list timer_call) :
  let s := timer_run elapsed_time calls (Timer.__init__ name, w) in
  timer_inv name s.1 ∧
  (next_event w ≤ next_event s.2)%nat ∧
  rank s.2 = rank w ∧ log_out s.2 = log_out w ∧
  (∀ reset, ∃ total, (Timer.elapsed elapsed_time reset s).1 = Ok total).
Proof.
  cbv zeta.
  assert (∀ s0 : Timer.t * World, timer_inv name s0.1 →
            let s := timer_run elapsed_time calls s0 in
            timer_inv name s.1 ∧ (next_event s0.2 ≤ next_event s.2)%nat ∧
            rank s.2 = rank s0.2 ∧ log_out s.2 = log_out s0.2) as Hrun.
  { unfold timer_run. induction calls as [|c calls IH]; intros [t0 w0] Hinv.
    { cbn. by split_and!. }
    cbn [foldl].
    destruct (timer_perform_inv elapsed_time name c t0 w0 Hinv)
      as (Hinv' & Hle & Hrank & Hlog).
    destruct (IH _ Hinv') as (? & Hle' & Hrank' & Hlog').
    cbn [fst snd] in *. split_and!; [done|lia|congruence|congruence]. }
  destruct (Hrun (Timer.__init__ name, w)) as (Hinv & ? & ? & ?).
  { split; [done|]. split; [split; [done|by intros [? ?]]|apply Forall_nil_2]. }
  split_and!; try done.
  intros reset.
  destruct (timer_run elapsed_time calls (Timer.__init__ name, w)) as [t' w'].
  destruct (elapsed_total elapsed_time t' w' reset (timer_inv_wf _ _ Hinv))
    as (v & ? & ? & -> & _).
  by exists v.
Qed.

(** X5.  [mean()] a second time returns or raises what the first did and
    leaves the timer as the first left it, the records being sorted already;
    it touches nothing outside the timer. *)
Theorem X5_mean_twice (t : Timer.t) (w : World) :
  Timer.mean (Timer.mean (t, w)).2 = Timer.mean (t, w) ∧
  (Timer.mean (t, w)).2.2 = w.
Proof.
  destruct (Timer.elapsed_records t) as [data|] eqn:Hd.
  - rewrite (mean_with_records t w data Hd). cbn [snd].
    rewrite (mean_with_records
               (Timer.set_elapsed_records (Some (sort data)) t) w (sort data)
               eq_refl).
    rewrite trim_mean_sort, sort_idemp. done.
  - rewrite (mean_without_records t w Hd). cbn [snd].
    by rewrite (mean_without_records t w Hd).
Qed.

(** X6.  On a well-formed timer, [elapsed()] with its default [reset=True]
    followed by [mean()] raises TypeError, the records being gone, while
    [elapsed(reset=False)] followed by [mean()] gives the trimmed mean, at
    0.1, of the durations whose sum [elapsed] returned. *)
Theorem X6_mean_needs_unreset_elapsed elapsed_time (t : Timer.t) (w : World) :
  wf_timer t →
  ((Timer.elapsed elapsed_time true;; Timer.mean) (t, w)).1 = Raise TypeError ∧
  ∃ total recorded,
    (Timer.elapsed elapsed_time false (t, w)).1 = Ok total ∧
    Timer.elapsed_records (Timer.elapsed elapsed_time false (t, w)).2.1
    = Some recorded ∧
    sum recorded = total ∧
    ((Timer.elapsed elapsed_time false;; Timer.mean) (t, w)).1
    = (trim_mean recorded tenth).1.
Proof.
  intros [Hbuf Hrun]. rewrite !run_bind, !elapsed_cases.
  destruct (Timer.started_ t) eqn:Hs.
  - destruct (durations_total elapsed_time
                (Timer.event_timers t
                 ++ [CudaEventTimer.__init__ (Timer.start_event t)
                       (next_event w)])) as [ds ->].
    { apply Forall_app. split; [done|]. apply Forall_singleton. by apply Hrun. }
    split; [by rewrite mean_without_records|].
    exists (sum ds), ds. by split_and!.
  - destruct (durations_total elapsed_time _ Hbuf) as [ds ->].
    split; [by rewrite mean_without_records|].
    exists (sum ds), ds. by split_and!.
Qed.

Lemma X6_witness :
  ((Timer.elapsed three_intervals true;; Timer.mean) (timer_a, registry_a.2)).1
  = Raise TypeError.
Proof.
  apply (X6_mean_needs_unreset_elapsed three_intervals timer_a registry_a.2).
  apply (wf_registry_a "a"). reflexivity.
Defined.

(** ** [trim_mean]: order, scale and bounds *)

Lemma sum_Permutation l l' : l ≡ₚ l' → sum l = sum l'.
Proof.
  induction 1 as [|x l l' _ IH|x y l|l l' l'' _ IH1 _ IH2].
  - done.
  - by rewrite !sum_cons, IH.
  - rewrite !sum_cons. ring.
  - by rewrite IH1.
Qed.

Lemma sort_Permutation_eq l l' : l ≡ₚ l' → sort l = sort l'.
Proof.
  intros Hperm. apply sort_unique; [apply sort_Sorted|].
  by rewrite sort_Permutation.
Qed.

Lemma slice_all {A} (l : list A) : slice l 0 (Z.of_nat (length l) - 0) = l.
Proof.
  rewrite slice_trim by lia. cbn [Z.to_nat drop].
  apply take_ge. lia.
Qed.

Lemma round_tenth_small (n : nat) :
  (n ≤ 5)%nat → round (Qc_of_Z (Z.of_nat n) * tenth) = 0%Z.
Proof.
  intros Hn. do 6 (destruct n as [|n]; [by vm_compute|]). lia.
Qed.

Lemma round_tenth_medium (n : nat) :
  (6 ≤ n ≤ 14)%nat → round (Qc_of_Z (Z.of_nat n) * tenth) = 1%Z.
Proof.
  intros Hn. do 6 (destruct n as [|n]; [lia|]).
  do 9 (destruct n as [|n]; [by vm_compute|]). lia.
Qed.

(** X7.  With the fraction 0.1 that [Timer.mean] passes, [trim_mean] trims
    nothing from 1 to 5 samples, where its result is the plain mean, and
    exactly the smallest and the largest sample from 6 to 14 samples. *)
Theorem X7_tenth_trims_by_sample_count (data : list Qc) :
  let n := length data in
  ((1 ≤ n ≤ 5)%nat →
   trim_mean data tenth
   = (Ok (Finite (sum data / Qc_of_Z (Z.of_nat n))), sort data)) ∧
  ((6 ≤ n ≤ 14)%nat →
   trim_mean data tenth
   = (Ok (Finite (sum (take (n - 2) (drop 1 (sort data)))
                  / Qc_of_Z (Z.of_nat (n - 2)))), sort data)).
Proof.
  cbv zeta. split; intros Hn.
  - rewrite trim_mean_in_range by done.
    rewrite round_tenth_small by lia.
    rewrite <-(length_sort data) at 1. rewrite slice_all.
    f_equal. f_equal. unfold np_mean.
    destruct (sort data) as [|x l] eqn:Hsort.
    { apply (f_equal length) in Hsort. rewrite length_sort in Hsort.
      cbn in Hsort. lia. }
    rewrite <-Hsort, length_sort. by rewrite (sum_Permutation _ _ (sort_Permutation data)).
  - rewrite trim_mean_in_range by done.
    rewrite round_tenth_medium by lia.
    rewrite <-(length_sort data) at 1. rewrite slice_trim by (rewrite length_sort; lia).
    rewrite length_sort. cbn [Z.to_nat Pos.to_nat Pos.iter_op Init.Nat.add Nat.mul].
    f_equal. f_equal.
    replace (length data - 2 * 1)%nat with (length data - 2)%nat by lia.
    unfold np_mean.
    destruct (take _ _) as [|x l] eqn:Hkept.
    { apply (f_equal length) in Hkept.
      rewrite length_take, length_drop, length_sort in Hkept. cbn in Hkept. lia. }
    rewrite <-Hkept. do 3 f_equal.
    rewrite length_take, length_drop, length_sort. lia.
Qed.

Lemma X7_witness :
  trim_mean [Qc_of_Z 100; Qc_of_Z 10] tenth
  = (Ok (Finite (sum [Qc_of_Z 100; Qc_of_Z 10] / Qc_of_Z 2)),
     sort [Qc_of_Z 100; Qc_of_Z 10]).
Proof.
  apply (X7_tenth_trims_by_sample_count [Qc_of_Z 100; Qc_of_Z 10]). cbn. lia.
Defined.

(** X8.  [trim_mean] does not depend on the order of the samples: two lists
    with the same samples give the same result or the same failure, and for
    a fraction in [0, 1] they are left as the same sorted list. *)
Theorem X8_trim_mean_ignores_order (data data' : list Qc) (p : Qc) :
  data ≡ₚ data' →
  (trim_mean data p).1 = (trim_mean data' p).1 ∧
  (0 ≤ p ≤ 1 → trim_mean data p = trim_mean data' p).
Proof.
  intros Hperm.
  assert (0 ≤ p ≤ 1 → trim_mean data p = trim_mean data' p) as Hin.
  { intros Hp. rewrite !trim_mean_in_range by done.
    by rewrite (sort_Permutation_eq _ _ Hperm), Hperm. }
  split; [|done].
  destruct (trim_mean_assert data p) as [Hp|Hraise]; [by rewrite (Hin Hp)|].
  destruct (trim_mean_assert data' p) as [Hp|Hraise']; [by rewrite (Hin Hp)|].
  by rewrite Hraise, Hraise'.
Qed.

Lemma X8_witness :
  trim_mean [Qc_of_Z 100; Qc_of_Z 10; Qc_of_Z 12] tenth
  = trim_mean [Qc_of_Z 12; Qc_of_Z 100; Qc_of_Z 10] tenth.
Proof.
  apply (X8_trim_mean_ignores_order [Qc_of_Z 100; Qc_of_Z 10; Qc_of_Z 12]
           [Qc_of_Z 12; Qc_of_Z 100; Qc_of_Z 10] tenth); [|done].
  symmetry. apply (Permutation_cons_append [Qc_of_Z 100; Qc_of_Z 10] (Qc_of_Z 12)).
Defined.

Lemma sum_scale (c : Qc) l : sum (Qcmult c <$> l) = c * sum l.
Proof.
  induction l as [|x l IH]; [cbn; ring|].
  rewrite fmap_cons, !sum_cons, IH. ring.
Qed.

Lemma sort_scale (c : Qc) l :
  0 < c → sort (Qcmult c <$> l) = Qcmult c <$> sort l.
Proof.
  intros Hc. symmetry. apply sort_unique.
  - apply (Sorted_fmap _ Qcle Qcle); [|apply sort_Sorted].
    intros x y Hxy. apply Qcmult_le_mono_nonneg_l; [by apply Qclt_le_weak|done].
  - by rewrite sort_Permutation.
Qed.

Lemma slice_fmap {A B} (f : A → B) (l : list A) lo hi :
  slice (f <$> l) lo hi = f <$> slice l lo hi.
Proof. unfold slice. by rewrite length_fmap, fmap_take, fmap_drop. Qed.

Lemma np_mean_scale (c : Qc) l :
  np_mean (Qcmult c <$> l) = pf_mul (Finite c) (np_mean l).
Proof.
  destruct l as [|x l]; [done|].
  unfold np_mean. rewrite fmap_cons at 1. cbn [pf_mul].
  rewrite sum_scale, length_fmap. f_equal. unfold Qcdiv. ring.
Qed.

(** X9.  Scaling every sample by a positive factor scales the trimmed mean by
    that factor, in exact arithmetic; a failure and the nan of an empty
    selection are kept. *)
Theorem X9_trim_mean_scales (data : list Qc) (p c : Qc) :
  0 < c →
  (trim_mean (Qcmult c <$> data) p).1
  = match (trim_mean data p).1 with
    | Ok mean => Ok (pf_mul (Finite c) mean)
    | Raise e => Raise e
    end.
Proof.
  intros Hc.
  destruct (trim_mean_assert data p) as [Hp|Hraise].
  - rewrite !trim_mean_in_range by done. cbn [fst].
    by rewrite length_fmap, sort_scale, slice_fmap, np_mean_scale.
  - rewrite Hraise. cbn [fst].
    destruct (trim_mean_assert (Qcmult c <$> data) p) as [Hp| ->]; [|done].
    by rewrite trim_mean_in_range in Hraise.
Qed.

Lemma X9_witness :
  (trim_mean (Qcmult (Qc_of_Z 1000) <$> [Qc_of_Z 100; Qc_of_Z 10; Qc_of_Z 12])
     tenth).1
  = Ok (pf_mul (Finite (Qc_of_Z 1000)) (Finite (Q2Qc (122 # 3)))).
Proof.
  rewrite (X9_trim_mean_scales [Qc_of_Z 100; Qc_of_Z 10; Qc_of_Z 12] tenth
             (Qc_of_Z 1000)); [|done].
  reflexivity.
Defined.






(** ** The registry: [__call__], [log] and [get_mean] together *)

Lemma call_present (name : string) (t : Timer.t) (s : state) :
  s.1 !! name = Some t → __call__ name s = (Ok t, s).
Proof.
  intros Ht. unfold __call__, contains, when, on_timer, gets.
  rewrite run_bind. rewrite bool_decide_eq_true_2 by by eexists.
  cbn [negb]. rewrite run_bind, run_ret, Ht. cbn [fst snd].
  rewrite insert_id by done. by destruct s.
Qed.

Lemma call_absent (name : string) (s : state) :
  s.1 !! name = None →
  __call__ name s
  = (Ok (Timer.__init__ name), (<[name := Timer.__init__ name]> s.1, s.2)).
Proof.
  intros Ht. unfold __call__, contains, when, on_timer, gets, modify.
  rewrite run_bind.
  rewrite bool_decide_eq_false_2 by (rewrite Ht; by intros [? ?]).
  cbn [negb]. rewrite run_bind. cbn [fst snd].
  rewrite lookup_insert_eq. by rewrite insert_insert_eq.
Qed.

(** X11.  [timers(name)] returns the timer registered under [name], or
    registers and returns a new stopped one.  Other names and the world are
    untouched, a registered name leaves the registry as it was, and asking
    again gives the same timer and changes nothing. *)
Theorem X11_call_gets_or_creates (name : string) (s : state) :
  let answer := (__call__ name s).1 in
  let s' := (__call__ name s).2 in
  answer = Ok (default (Timer.__init__ name) (s.1 !! name)) ∧
  s'.1 !! name = Some (default (Timer.__init__ name) (s.1 !! name)) ∧
  (∀ other, other ≠ name → s'.1 !! other = s.1 !! other) ∧
  s'.2 = s.2 ∧
  (is_Some (s.1 !! name) → s' = s) ∧
  __call__ name s' = (answer, s').
Proof.
  cbv zeta. destruct (s.1 !! name) as [t|] eqn:Ht.
  - rewrite (call_present name t s Ht). cbn [fst snd default].
    split_and!; try done. by apply call_present.
  - rewrite (call_absent name s Ht). cbn [fst snd default].
    split_and!.
    + done.
    + by rewrite lookup_insert_eq.
    + intros other Hother. by rewrite lookup_insert_ne.
    + done.
    + by intros [? ?].
    + apply call_present. cbn. by rewrite lookup_insert_eq.
Qed.

(** X12.  For a normalizer that is not positive, [log] and [get_mean] both
    raise AssertionError before anything else: no timer is read and nothing
    is logged. *)
Theorem X12_normalizer_must_be_positive elapsed_time (names : list string)
    (normalizer : Qc) (reset memory_breakdown : bool) (ranks : option (list Z))
    (s : state) :
  normalizer ≤ 0 →
  log elapsed_time names normalizer reset memory_breakdown ranks s
  = (Raise (AssertionError ""), s) ∧
  get_mean names normalizer reset s = (Raise (AssertionError ""), s).
Proof.
  intros Hn. unfold log, get_mean. rewrite !run_bind. unfold assert.
  by rewrite (proj2 (Qc_ltb_false 0 normalizer) Hn).
Qed.

Lemma X12_witness :
  log three_intervals ["a"] 0 true false None registry_a
  = (Raise (AssertionError ""), registry_a).
Proof.
  by apply (X12_normalizer_must_be_positive three_intervals ["a"] 0 true false
              None registry_a).
Defined.

(** [log] with a positive normalizer on well-formed timers, by the values
    [elapsed] returns. *)
Lemma log_run elapsed_time (names : list string) (normalizer : Qc)
    (reset memory_breakdown : bool) (ranks : option (list Z)) (s : state) :
  0 < normalizer → wf_registry s.1 →
  log elapsed_time names normalizer reset memory_breakdown ranks s
  = (Ok (),
     ((elapsed_values elapsed_time reset names s).2.1,
      {| next_event := next_event (elapsed_values elapsed_time reset names s).2.2;
         rank := rank (elapsed_values elapsed_time reset names s).2.2;
         log_out :=
           log_out (elapsed_values elapsed_time reset names s).2.2
           ++ [(log_line (rank s.2) normalizer
                  (elapsed_values elapsed_time reset names s).1,
                ranks_or_default ranks)] |})).
Proof.
  intros Hn Hwf. unfold log. rewrite run_bind. unfold assert.
  rewrite (proj2 (Qc_ltb_true 0 normalizer) Hn), run_ret.
  rewrite run_bind. unfold gets at 1. rewrite run_bind.
  rewrite log_loop by done.
  unfold zoom, log_dist, modify. cbn [fst snd].
  unfold log_line. by rewrite !string_app_assoc.
Qed.

Lemma get_mean_run (names : list string) (normalizer : Qc) (reset : bool)
    (s : state) :
  0 < normalizer →
  get_mean names normalizer reset s
  = for_fold names ∅ (get_mean_body normalizer) s.
Proof.
  intros Hn. unfold get_mean. rewrite run_bind. unfold assert.
  by rewrite (proj2 (Qc_ltb_true 0 normalizer) Hn), run_ret.
Qed.



(** What [elapsed] leaves of a well-formed timer. *)
Lemma elapsed_shape elapsed_time (t : Timer.t) (w : World) (reset : bool) :
  wf_timer t →
  ∃ total held recorded w',
    Timer.elapsed elapsed_time reset (t, w)
    = (Ok total,
       (Timer.mk (Timer.name_ t) (Timer.started_ t) [] held
          (if reset then None else Some recorded), w')) ∧
    wf_timer (Timer.mk (Timer.name_ t) (Timer.started_ t) [] held
                (if reset then None else Some recorded)).
Proof.
  intros Hwf. pose proof (wf_timer_elapsed elapsed_time t w reset Hwf) as Hwf'.
  destruct Hwf as [Hbuf Hrun]. rewrite elapsed_cases in Hwf' |- *.
  destruct (Timer.started_ t) eqn:Hs.
  - destruct (durations_total elapsed_time
                (Timer.event_timers t
                 ++ [CudaEventTimer.__init__ (Timer.start_event t)
                       (next_event w)])) as [ds Hds].
    { apply Forall_app. split; [done|]. apply Forall_singleton. by apply Hrun. }
    rewrite Hds in Hwf' |- *. by eexists _, _, ds, _.
  - destruct (durations_total elapsed_time _ Hbuf) as [ds Hds].
    rewrite Hds in Hwf' |- *.
    destruct reset; [by eexists _, None, ds, _|by eexists _, _, ds, _].
Qed.

(** The registry after the replay of [log]: names, running states and the
    timers not asked for are as before; the timers asked for are drained. *)
Lemma elapsed_values_state elapsed_time (reset : bool) (names : list string) :
  ∀ s : state, wf_registry s.1 →
  ∀ name,
    match s.1 !! name with
    | None => (elapsed_values elapsed_time reset names s).2.1 !! name = None
    | Some t =>
        ∃ t', (elapsed_values elapsed_time reset names s).2.1 !! name = Some t' ∧
          Timer.name_ t' = Timer.name_ t ∧
          Timer.started_ t' = Timer.started_ t ∧
          (name ∉ names → t' = t) ∧
          (name ∈ names →
           Timer.event_timers t' = [] ∧
           (reset = true → Timer.elapsed_records t' = None))
    end.
Proof.
  induction names as [|head names IH]; intros s Hwf name.
  { cbn. destruct (s.1 !! name) as [t|]; [|done].
    exists t. split_and!; try done. by intros ?%elem_of_nil. }
  cbn [elapsed_values].
  destruct (s.1 !! head) as [th|] eqn:Hhead.
  - rewrite bool_decide_eq_true_2 by by eexists.
    unfold on_timer. rewrite Hhead.
    destruct (elapsed_shape elapsed_time th s.2 reset (Hwf head th Hhead))
      as (total & held & recorded & w' & -> & Hwf').
    set (th' := Timer.mk _ _ _ _ _) in *.
    assert (wf_registry (<[head := th']> s.1)) as Hwf1
      by by apply map_Forall_insert_2.
    specialize (IH (<[head := th']> s.1, w') Hwf1 name).
    destruct (elapsed_values elapsed_time reset names _) as [vals s'] eqn:Hreplay.
    cbn [fst snd] in *.
    destruct (decide (name = head)) as [->|Hne].
    + rewrite Hhead. rewrite lookup_insert_eq in IH.
      destruct IH as (t' & Ht' & Hname & Hstarted & Hout & Hin).
      exists t'. split_and!; try done.
      * intros Hnot. exfalso. apply Hnot. by left.
      * intros _. destruct (decide (head ∈ names)) as [Hyes|Hno]; [by apply Hin|].
        rewrite (Hout Hno). split; [done|]. by intros ->.
    + rewrite lookup_insert_ne in IH by done.
      destruct (s.1 !! name) as [t|]; [|done].
      destruct IH as (t' & Ht' & Hname & Hstarted & Hout & Hin).
      exists t'. split_and!; try done.
      * intros Hnot. apply Hout. intros Hyes. apply Hnot. by right.
      * intros [?|Hyes]%elem_of_cons; [done|by apply Hin].
  - rewrite bool_decide_eq_false_2 by by intros [? ?].
    specialize (IH s Hwf name).
    destruct (s.1 !! name) as [t|] eqn:Hname; [|done].
    destruct IH as (t' & Ht' & Hn & Hstarted & Hout & Hin).
    exists t'. split_and!; try done.
    + intros Hnot. apply Hout. intros Hyes. apply Hnot. by right.
    + intros [->|Hyes]%elem_of_cons; [congruence|by apply Hin].
Qed.

(** X14.  [log] with a positive normalizer on a well-formed registry adds
    and removes no timer and keeps the name and the started flag of each.  A
    timer that is not listed is left as it was; a listed one has its buffer
    drained and, with [reset], its records cleared. *)
Theorem X14_log_drains_requested_timers elapsed_time (names : list string)
    (normalizer : Qc) (reset memory_breakdown : bool) (ranks : option (list Z))
    (s : state) :
  0 < normalizer → wf_registry s.1 →
  let s' := (log elapsed_time names normalizer reset memory_breakdown ranks s).2 in
  ∀ name,
    match s.1 !! name with
    | None => s'.1 !! name = None
    | Some t =>
        ∃ t', s'.1 !! name = Some t' ∧
          Timer.name_ t' = Timer.name_ t ∧
          Timer.started_ t' = Timer.started_ t ∧
          (name ∉ names → t' = t) ∧
          (name ∈ names →
           Timer.event_timers t' = [] ∧
           (reset = true → Timer.elapsed_records t' = None))
    end.
Proof.
  intros Hn Hwf. cbv zeta. intros name. rewrite log_run by done. cbn [fst snd].
  by apply elapsed_values_state.
Qed.

Lemma X14_witness :
  ∃ t', (log three_intervals ["a"] 1 true false None registry_a).2.1 !! "a"
        = Some t' ∧
        Timer.event_timers t' = [] ∧ Timer.elapsed_records t' = None.
Proof.
  pose proof (X14_log_drains_requested_timers three_intervals ["a"] 1 true false
                None registry_a eq_refl wf_registry_a "a") as H.
  change (registry_a.1 !! "a") with (Some timer_a) in H.
  destruct H as (t' & Ht' & _ & _ & _ & Hin).
  exists t'. destruct Hin as [? Hrec]; [by left|].
  split_and!; [done|done|by apply Hrec].
Defined.

(** X15.  After [log] with its default [reset=True] of names of which at
    least one is registered, [get_mean] of the same names raises TypeError:
    the records it would average were cleared. *)
Theorem X15_get_mean_after_default_log elapsed_time (names : list string)
    (normalizer normalizer' : Qc) (memory_breakdown reset' : bool)
    (ranks : option (list Z)) (s : state) :
  0 < normalizer → 0 < normalizer' → wf_registry s.1 →
  (∃ name, name ∈ names ∧ is_Some (s.1 !! name)) →
  ((log elapsed_time names normalizer true memory_breakdown ranks;;
    get_mean names normalizer' reset') s).1
  = Raise TypeError.
Proof.
  intros Hn Hn' Hwf (name & Hin & [t Ht]).
  rewrite run_bind, log_run by done.
  rewrite get_mean_run by done.
  pose proof (elapsed_values_state elapsed_time true names s Hwf name) as Hstate.
  rewrite Ht in Hstate. destruct Hstate as (t' & Ht' & _ & _ & _ & Hdrained).
  destruct (Hdrained Hin) as [_ Hnone].
  apply (get_mean_loop_raises normalizer'
           (elapsed_values elapsed_time true names s).2.1);
    [done| |apply sorted_from_refl].
  exists name, t'. split_and!; [done|done|by apply Hnone].
Qed.

Lemma X15_witness :
  ((log three_intervals ["a"] 1 true false None;; get_mean ["a"] 1 true)
     registry_a).1
  = Raise TypeError.
Proof.
  apply (X15_get_mean_after_default_log three_intervals ["a"] 1 1 false true
           None registry_a); [done|done|exact wf_registry_a|].
  exists "a". split; [by left|]. by eexists.
Defined.

Lemma same_but_sorted_refl t : same_but_sorted t t.
Proof. by left. Qed.

Lemma same_but_sorted_step t0 t data :
  same_but_sorted t0 t → Timer.elapsed_records t = Some data →
  same_but_sorted t0 (Timer.set_elapsed_records (Some (sort data)) t).
Proof.
  intros [->|(data0 & Hd0 & ->)] Hd.
  - right. by exists data.
  - right. exists data0. split; [done|].
    cbn in Hd. injection Hd as <-. by rewrite sort_idemp.
Qed.

(** The registry [r] holds the timers of [r0], each as it was or with its
    recorded durations sorted. *)
Lemma get_mean_loop_state (normalizer : Qc) (r0 : gmap string Timer.t)
    (names : list string) :
  ∀ (acc : gmap string pyfloat) (s : state),
  (∀ name, option_Forall2 same_but_sorted (r0 !! name) (s.1 !! name)) →
  ∃ answer s',
    for_fold names acc (get_mean_body normalizer) s = (answer, s') ∧
    s'.2 = s.2 ∧
    ∀ name, option_Forall2 same_but_sorted (r0 !! name) (s'.1 !! name).
Proof.
  induction names as [|name names IH]; intros acc s Hs.
  { by eexists _, s. }
  cbn [for_fold]. rewrite !run_bind. unfold contains at 1, gets.
  destruct (s.1 !! name) as [t|] eqn:Ht.
  - rewrite bool_decide_eq_true_2 by by eexists.
    rewrite run_bind. unfold on_timer at 1. rewrite Ht.
    destruct (Timer.elapsed_records t) as [data|] eqn:Hd.
    + rewrite (mean_with_records t s.2 data Hd).
      assert (∀ other, option_Forall2 same_but_sorted (r0 !! other)
                (<[name := Timer.set_elapsed_records (Some (sort data)) t]> s.1
                 !! other)) as Hs'.
      { intros other. destruct (decide (other = name)) as [->|Hne].
        - rewrite lookup_insert_eq. specialize (Hs name). rewrite Ht in Hs.
          inversion Hs as [t0 ? Hrel|]; subst. constructor.
          by apply same_but_sorted_step.
        - rewrite lookup_insert_ne by done. apply Hs. }
      destruct (trim_mean data tenth).1 as [mu|e]; cbn [fst].
      * rewrite run_bind. unfold lift at 1.
        destruct (pf_div _ _) as [v|e].
        -- rewrite run_ret.
           destruct (IH (<[name := v]> acc) (_, s.2) Hs')
             as (answer & s' & -> & ? & ?).
           by eexists _, _.
        -- by eexists _, _.
      * by eexists _, _.
    + rewrite (mean_without_records t s.2 Hd).
      eexists _, _. split; [done|]. cbn [fst snd]. split; [done|].
      by rewrite insert_id.
  - rewrite bool_decide_eq_false_2 by by intros [? ?].
    rewrite run_ret. by apply IH.
Qed.

(** X16.  [get_mean] changes nothing but the order of the records: the world
    is untouched and every timer is as before or has its [elapsed_records]
    sorted, whether [get_mean] returns or raises. *)
Theorem X16_get_mean_only_sorts (names : list string) (normalizer : Qc)
    (reset : bool) (s : state) :
  let s' := (get_mean names normalizer reset s).2 in
  s'.2 = s.2 ∧
  ∀ name, option_Forall2 same_but_sorted (s.1 !! name) (s'.1 !! name).
Proof.
  cbv zeta.
  assert (∀ name, option_Forall2 same_but_sorted (s.1 !! name) (s.1 !! name))
    as Hrefl.
  { intros name. destruct (s.1 !! name); constructor. apply same_but_sorted_refl. }
  unfold get_mean. rewrite run_bind. unfold assert.
  destruct (Qc_ltb 0 normalizer); [|done].
  rewrite run_ret.
  by destruct (get_mean_loop_state normalizer s.1 names ∅ s Hrefl)
    as (answer & s' & -> & ? & ?).
Qed.

(** ** [ThroughputTimer]: start and stop out of turn *)

(** [stop] in full: what it returns, the tracker it leaves and the lines it
    logs. *)
Lemma stop_cases now report_speed (t : TT.t) (out : list TT.line) :
  TT.stop now report_speed (t, out) =
  if negb (TT.started t) then (Ok (), (t, out))
  else
    let t' := after_stop now t in
    let epoch := TT.epoch_count t in
    let local := (TT.local_step_count t + 1)%Z in
    if negb (TT.total_step_count t + 1 >? TT.start_step t)%Z
    then (Ok (), (t', out))
    else
      match py_mod local (TT.steps_per_output t) with
      | Raise e => (Raise e, (t', out))
      | Ok remainder =>
          if negb (remainder =? 0)%Z then (Ok (), (t', out))
          else if report_speed then
            match TT.avg_samples_per_sec t' with
            | Raise e => (Raise e, (t', out))
            | Ok rate =>
                (Ok (),
                 (t', (out ++ [TT.SpeedLine epoch local rate])
                      ++ (if TT.monitor_memory t
                          then [TT.MemoryLine epoch local] else [])))
            end
          else
            (Ok (),
             (t', out ++ (if TT.monitor_memory t
                          then [TT.MemoryLine epoch local] else [])))
      end.
Proof.
  destruct t as [? ? running ? ? ? ? ? ? ? ? monitor ?].
  unfold after_stop. unfold_tt.
  cbn -[TT.avg_samples_per_sec py_mod].
  destruct running; cbn -[TT.avg_samples_per_sec py_mod]; [|done].
  destruct (_ >? _)%Z; cbn -[TT.avg_samples_per_sec py_mod]; [|done].
  destruct (py_mod _ _) as [r|]; cbn -[TT.avg_samples_per_sec]; [|done].
  destruct (r =? 0)%Z; cbn -[TT.avg_samples_per_sec]; [|done].
  destruct report_speed; cbn -[TT.avg_samples_per_sec].
  - destruct (TT.avg_samples_per_sec _); cbn; [|done].
    destruct monitor; cbn; [done|by rewrite app_nil_r].
  - destruct monitor; cbn; [done|by rewrite app_nil_r].
Qed.

(** X17.  [ThroughputTimer.stop] does nothing on a tracker that is not
    running: there is no assertion, unlike [Timer.stop].  It always leaves
    the tracker not running, so a second [stop] returns and changes
    nothing. *)
Theorem X17_stop_twice now report_speed now' report_speed' (s : TT.state) :
  (TT.started s.1 = false → TT.stop now report_speed s = (Ok (), s)) ∧
  TT.started (TT.stop now report_speed s).2.1 = false ∧
  TT.stop now' report_speed' (TT.stop now report_speed s).2
  = (Ok (), (TT.stop now report_speed s).2).
Proof.
  assert (∀ a r (s0 : TT.state),
            TT.started s0.1 = false → TT.stop a r s0 = (Ok (), s0)) as Hidle.
  { intros a r [t out] Hs. rewrite stop_cases. cbn [fst] in Hs. by rewrite Hs. }
  assert (TT.started (TT.stop now report_speed s).2.1 = false) as Hoff.
  { rewrite stop_state. unfold after_stop.
    by destruct (TT.started s.1) eqn:Hs. }
  split_and!; [by apply Hidle|done|by apply Hidle].
Qed.

(** X18.  [ThroughputTimer.start] on a running tracker does not fail, the
    later start replaces the earlier: [start(); start()] leaves what the
    second alone leaves.  [start] never raises, logs nothing, and changes
    neither the total elapsed time nor the step count. *)
Theorem X18_start_replaces_start now now' (s : TT.state) :
  (TT.start now;; TT.start now') s = TT.start now' s ∧
  (TT.start now' s).1 = Ok () ∧
  (TT.start now' s).2.2 = s.2 ∧
  TT.total_elapsed_time (TT.start now' s).2.1 = TT.total_elapsed_time s.1 ∧
  TT.total_step_count (TT.start now' s).2.1 = TT.total_step_count s.1.
Proof.
  rewrite run_bind, (start_state now s). cbn iota. rewrite !start_state.
  cbn [fst snd]. split_and!; try done. do 2 f_equal.
  unfold after_start. cbn. by destruct (_ >=? _)%Z.
Qed.

(** X19.  During the warm-up, when the step being counted is at most
    [start_step], [stop] on a running tracker only counts: it returns, logs
    nothing, adds one to both step counts and leaves the total elapsed time
    as it was, whatever [steps_per_output] is, zero included. *)
Theorem X19_warmup_stop_is_silent now report_speed (t : TT.t)
    (out : list TT.line) :
  TT.started t = true →
  (TT.total_step_count t + 1 ≤ TT.start_step t)%Z →
  TT.stop now report_speed (t, out) = (Ok (), (after_stop now t, out)) ∧
  TT.total_elapsed_time (after_stop now t) = TT.total_elapsed_time t ∧
  TT.total_step_count (after_stop now t) = (TT.total_step_count t + 1)%Z ∧
  TT.local_step_count (after_stop now t) = (TT.local_step_count t + 1)%Z.
Proof.
  intros Hs Hwarm. rewrite stop_cases, Hs. cbn [negb]. unfold after_stop.
  rewrite Hs. cbn [negb].
  destruct (Z.gtb_spec (TT.total_step_count t + 1) (TT.start_step t)); [lia|].
  done.
Qed.

Lemma X19_witness :
  TT.stop 1 true ((TT.start 0 (tracker_32, [])).2)
  = (Ok (), (after_stop 1 (after_start 0 tracker_32), [])).
Proof.
  by apply (X19_warmup_stop_is_silent 1 true (after_start 0 tracker_32) []).
Defined.

(** X20.  With [steps_per_output = 0], [stop] of a running tracker past the
    warm-up raises ZeroDivisionError, after the step was counted and its
    duration added to the total; nothing is logged. *)
Theorem X20_zero_cadence_raises_after_timing now report_speed (t : TT.t)
    (out : list TT.line) :
  TT.started t = true →
  (TT.start_step t < TT.total_step_count t + 1)%Z →
  TT.steps_per_output t = 0%Z →
  TT.stop now report_speed (t, out)
  = (Raise ZeroDivisionError, (after_stop now t, out)) ∧
  TT.total_step_count (after_stop now t) = (TT.total_step_count t + 1)%Z ∧
  TT.total_elapsed_time (after_stop now t)
  = TT.total_elapsed_time t + (now - TT.start_time t).
Proof.
  intros Hs Hpast Hzero. rewrite stop_cases, Hs. cbn [negb]. unfold after_stop.
  rewrite Hs, Hzero. cbn [negb].
  destruct (Z.gtb_spec (TT.total_step_count t + 1) (TT.start_step t)); [|lia].
  done.
Qed.

Lemma X20_witness :
  (TT.stop 1 true (TT.mk 0 0 true 32 4 0 0 0 0 0 0 false true, [])).1
  = Raise ZeroDivisionError.
Proof.
  by destruct (X20_zero_cadence_raises_after_timing 1 true
                 (TT.mk 0 0 true 32 4 0 0 0 0 0 0 false true) [])
    as [-> _].
Defined.

(** ** [ThroughputTimer]: counters and logged lines *)

Lemma avg_not_neginf (t : TT.t) rate :
  (0 < TT.total_step_count t)%Z →
  TT.avg_samples_per_sec t = Ok rate → rate ≠ NegInf.
Proof.
  intros Hpos. unfold TT.avg_samples_per_sec.
  destruct (Z.gtb_spec (TT.total_step_count t) 0); [|lia].
  destruct (truediv _ _); [|done].
  destruct (truediv _ _); [|done].
  by intros [= <-].
Qed.

Lemma py_mod_ok x y r : py_mod x y = Ok r → y ≠ 0%Z ∧ r = (x `mod` y)%Z.
Proof.
  unfold py_mod. destruct (Z.eqb_spec y 0); [done|]. by intros [= <-].
Qed.

Lemma perform_log (c : TT.call) (s : TT.state) :
  ∃ new, (TT.perform c s).2.2 = s.2 ++ new.
Proof.
  destruct s as [t out]. destruct c as [now|now report_speed|]; cbn [TT.perform].
  - rewrite start_state. exists []. cbn. by rewrite app_nil_r.
  - rewrite stop_cases.
    destruct (negb (TT.started t)); [exists []; cbn; by rewrite app_nil_r|].
    cbv zeta.
    destruct (negb (_ >? _)%Z); [exists []; cbn; by rewrite app_nil_r|].
    destruct (py_mod _ _); [|exists []; cbn; by rewrite app_nil_r].
    destruct (negb (_ =? _)%Z); [exists []; cbn; by rewrite app_nil_r|].
    destruct report_speed.
    + destruct (TT.avg_samples_per_sec _);
        [|exists []; cbn; by rewrite app_nil_r].
      cbn [snd]. rewrite <-app_assoc. by eexists.
    + cbn [snd]. by eexists.
  - exists []. cbn. by rewrite app_nil_r.
Qed.

Lemma perform_tracker_inv (t0 : TT.t) (c : TT.call) (s : TT.state) :
  tracker_inv t0 s → tracker_inv t0 (TT.perform c s).2.
Proof.
  destruct s as [t out].
  intros Hinv. pose proof Hinv as (Hb & Hw & Hf & He & Hm & Hep & Hloc & Hout).
  cbn [fst snd] in *.
  destruct c as [now|now report_speed|]; cbn [TT.perform].
  - rewrite start_state. cbn [fst snd]. unfold tracker_inv, after_start.
    by cbn.
  - rewrite stop_cases.
    destruct (TT.started t) eqn:Hs; cbn [negb]; [|done].
    cbv zeta.
    assert (tracker_inv t0 (after_stop now t, out)) as Hquiet.
    { unfold tracker_inv, after_stop. rewrite Hs. cbn.
      split_and!; try done; lia. }
    destruct (Z.gtb_spec (TT.total_step_count t + 1) (TT.start_step t));
      cbn [negb]; [|done].
    destruct (py_mod _ _) as [r|] eqn:Hmod; [|done].
    apply py_mod_ok in Hmod as [Hevery ->].
    destruct (Z.eqb_spec ((TT.local_step_count t + 1) `mod`
                            TT.steps_per_output t) 0) as [Hdue|];
      cbn [negb]; [|done].
    assert ((0 ≤ TT.epoch_count t ∧ 1 ≤ TT.local_step_count t + 1 ∧
             TT.steps_per_output t0 ≠ 0 ∧
             (TT.local_step_count t + 1) `mod` TT.steps_per_output t0 = 0)%Z)
      as Hstep.
    { rewrite <-He. split_and!; try done; lia. }
    assert (Forall (line_ok (TT.steps_per_output t0) (TT.monitor_memory t0))
              (if TT.monitor_memory t
               then [TT.MemoryLine (TT.epoch_count t)
                       (TT.local_step_count t + 1)]
               else [])) as Hmem.
    { destruct (TT.monitor_memory t) eqn:Hmon; [|constructor].
      apply Forall_singleton. cbn. by rewrite <-Hm. }
    pose proof Hquiet as (? & ? & ? & ? & ? & ? & H6 & _).
    cbn [fst snd] in *.
    destruct report_speed.
    + destruct (TT.avg_samples_per_sec _) as [rate|] eqn:Havg;
        [|exact Hquiet].
      apply avg_not_neginf in Havg;
        [|unfold after_stop; rewrite Hs; cbn; lia].
      unfold tracker_inv. cbn [fst snd].
      split_and!; try done; try (by destruct H6).
      apply Forall_app; split; [|done].
      apply Forall_app; split; [done|].
      by apply Forall_singleton.
    + unfold tracker_inv. cbn [fst snd].
      split_and!; try done; try (by destruct H6).
      by apply Forall_app.
  - destruct t. unfold tracker_inv. unfold_tt. cbn in *.
    split_and!; try done; lia.
Qed.

Lemma init_tracker_inv psutil batch workers first every monitor t0 calls :
  TT.__init__ psutil batch workers first every monitor = Ok t0 →
  tracker_inv (TT.mk 0 0 false (default 1%Z batch) workers first 0 0 0 0 every
                 monitor false)
    (TT.run calls (t0, [])).
Proof.
  intros Ht0. apply init_state in Ht0 as ->.
  apply (run_invariant (tracker_inv _)).
  - intros c s. apply perform_tracker_inv.
  - unfold tracker_inv. cbn. split_and!; try done. 
Qed.

(** X21.  Whatever calls are made on a tracker that comes from the
    constructor, failed ones included: the batch size, the number of
    workers, [start_step], [steps_per_output] and the memory flag stay as
    constructed, the epoch count is not negative, and
    [0 <= local_step_count <= total_step_count]. *)
Theorem X21_counters_and_settings (calls : list TT.call)
    psutil batch workers first every monitor t0 :
  TT.__init__ psutil batch workers first every monitor = Ok t0 →
  let reached := (TT.run calls (t0, [])).1 in
  TT.batch_size reached = default 1%Z batch ∧
  TT.num_workers reached = workers ∧
  TT.start_step reached = first ∧
  TT.steps_per_output reached = every ∧
  TT.monitor_memory reached = monitor ∧
  (0 ≤ TT.epoch_count reached)%Z ∧
  (0 ≤ TT.local_step_count reached ≤ TT.total_step_count reached)%Z.
Proof.
  intros Ht0. cbv zeta.
  destruct (init_tracker_inv _ _ _ _ _ _ _ calls Ht0)
    as (? & ? & ? & ? & ? & ? & [? ?] & _).
  by split_and!.
Qed.

Lemma X21_witness :
  let reached :=
    (TT.run [TT.Start 0; TT.Stop 1 true; TT.UpdateEpochCount;
             TT.Start (Qc_of_Z 2);
             TT.Stop (Qc_of_Z 3) true] (tracker_32, [])).1 in
  (0 ≤ TT.local_step_count reached ≤ TT.total_step_count reached)%Z.
Proof.
  cbv zeta.
  by destruct (X21_counters_and_settings
                 [TT.Start 0; TT.Stop 1 true; TT.UpdateEpochCount;
             TT.Start (Qc_of_Z 2);
                  TT.Stop (Qc_of_Z 3) true] true (Some 32%Z) 4 2 50 false tracker_32
                 eq_refl) as (_ & _ & _ & _ & _ & _ & H).
Defined.

Lemma run_app (calls more : list TT.call) (s : TT.state) :
  TT.run (calls ++ more) s = TT.run more (TT.run calls s).
Proof. unfold TT.run. apply foldl_app. Qed.

Lemma run_log (calls : list TT.call) : ∀ s : TT.state,
  s.2 `prefix_of` (TT.run calls s).2.
Proof.
  induction calls as [|c calls IH]; intros s; [done|].
  change (TT.run (c :: calls) s) with (TT.run calls (TT.perform c s).2).
  etrans; [|apply IH].
  destruct (perform_log c s) as [new ->]. by apply prefix_app_r.
Qed.

(** X22.  The lines logged by a tracker that comes from the constructor:
    each is made at a step of the epoch that is a positive multiple of
    [steps_per_output], a speed line never carries the [-inf] of
    [avg_samples_per_sec], and a memory line appears only when memory is
    monitored.  Nothing is logged with [steps_per_output = 0], and further
    calls only add lines. *)
Theorem X22_logged_lines (calls more : list TT.call)
    psutil batch workers first every monitor t0 :
  TT.__init__ psutil batch workers first every monitor = Ok t0 →
  let lines := (TT.run calls (t0, [])).2 in
  Forall (line_ok every monitor) lines ∧
  (every = 0%Z → lines = []) ∧
  lines `prefix_of` (TT.run (calls ++ more) (t0, [])).2.
Proof.
  intros Ht0. cbv zeta.
  destruct (init_tracker_inv _ _ _ _ _ _ _ calls Ht0)
    as (_ & _ & _ & _ & _ & _ & _ & Hlines).
  cbn in Hlines. split_and!; [done| |].
  - intros ->. destruct (TT.run calls (t0, [])).2 as [|l ?]; [done|].
    apply Forall_cons in Hlines as [Hl _].
    destruct l; cbn in Hl; tauto.
  - rewrite run_app. apply run_log.
Qed.

Lemma X22_witness :
  Forall (line_ok 1 false)
    (TT.run [TT.Start 0; TT.Stop 1 true] (TT.mk 0 0 false 32 4 0 0 0 0 0 1 false false, [])).2.
Proof.
  by destruct (X22_logged_lines [TT.Start 0; TT.Stop 1 true] [] true
                 (Some 32%Z) 4 0 1 false
                 (TT.mk 0 0 false 32 4 0 0 0 0 0 1 false false) eq_refl)
    as (H & _).
Defined.

(** ** [ThroughputTimer]: steps of varying duration *)

Lemma Qcdiv_pos (a b : Qc) : 0 < a → 0 < b → 0 < a / b.
Proof.
  intros Ha Hb. apply Qclt_nge. intros Hle.
  assert (b ≠ 0) as Hb0 by (intros ->; by apply (Qclt_not_eq 0 0)).
  apply (Qcmult_le_mono_pos_r _ _ b Hb) in Hle.
  rewrite (Qcmult_comm (a / b)), Qcmult_div_r, Qcmult_0_l in Hle by done.
  by apply Qcle_ngt in Hle.
Qed.

Lemma sum_nonneg (l : list Qc) : Forall (λ x, 0 < x) l → 0 ≤ sum l.
Proof.
  induction 1 as [|x l Hx _ IH]; [apply Qcle_refl|].
  rewrite sum_cons. apply Qclt_le_weak. by apply Qcplus_pos_nonneg.
Qed.

Lemma sum_pos (l : list Qc) : Forall (λ x, 0 < x) l → l ≠ [] → 0 < sum l.
Proof.
  intros [|x l' Hx Hl]; [done|]. intros _.
  rewrite sum_cons. apply Qcplus_pos_nonneg; [done|by apply sum_nonneg].
Qed.

(** The steps of a training loop, of any durations: the steps of the warm-up
    are counted and not timed, the others add their own duration. *)
Lemma training_steps_run : ∀ (steps : list (Qc * Qc)) (s : TT.state),
  TT.started s.1 = false →
  let s' := TT.run (training_steps steps) s in
  TT.started s'.1 = false ∧
  TT.total_step_count s'.1
  = (TT.total_step_count s.1 + Z.of_nat (length steps))%Z ∧
  TT.start_step s'.1 = TT.start_step s.1 ∧
  TT.batch_size s'.1 = TT.batch_size s.1 ∧
  TT.num_workers s'.1 = TT.num_workers s.1 ∧
  TT.total_elapsed_time s'.1
  = TT.total_elapsed_time s.1
    + sum (drop (Z.to_nat (TT.start_step s.1 - TT.total_step_count s.1))
             steps.*2).
Proof.
  induction steps as [|[now d] steps IH]; intros s Hs; cbv zeta.
  - unfold training_steps. cbn. rewrite drop_nil.
    change (sum []) with (Q2Qc 0). rewrite Qcplus_0_r, Z.add_0_r. done.
  - change (training_steps ((now, d) :: steps))
      with ([TT.Start now; TT.Stop (now + d) true] ++ training_steps steps).
    rewrite run_app.
    destruct (one_cycle now d s Hs) as (Hs1 & Hn1 & Hf1 & Hb1 & Hw1 & He1).
    set (s1 := TT.run [TT.Start now; TT.Stop (now + d) true] s) in *.
    destruct (IH s1 Hs1) as (Hs2 & Hn2 & Hf2 & Hb2 & Hw2 & He2).
    split_and!; [done| |congruence|congruence|congruence|].
    + rewrite Hn2, Hn1. cbn [length]. lia.
    + rewrite He2, He1, Hf1, Hn1. cbn [fmap list_fmap snd].
      destruct (Z.gtb_spec (TT.total_step_count s.1 + 1) (TT.start_step s.1))
        as [Hpast|Hwarm].
      * replace (Z.to_nat (TT.start_step s.1 - TT.total_step_count s.1))
          with 0%nat by lia.
        replace (Z.to_nat (TT.start_step s.1 - (TT.total_step_count s.1 + 1)))
          with 0%nat by lia.
        rewrite !drop_0, sum_cons. ring.
      * replace (Z.to_nat (TT.start_step s.1 - TT.total_step_count s.1))
          with (S (Z.to_nat (TT.start_step s.1 - (TT.total_step_count s.1 + 1))))
          by lia.
        cbn [drop]. ring.
Qed.

(** X23.  A training loop whose steps take their own durations, on a
    tracker from the constructor with [0 <= start_step]: every step is
    counted, and the total elapsed time is the sum of the durations of the
    steps after the first [start_step].  When there is such a step and these
    durations are positive, [avg_samples_per_sec] is the samples of a step
    over the mean of these durations, which is positive for a positive
    number of samples. *)
Theorem X23_varying_step_times psutil batch workers first every monitor t0
    (steps : list (Qc * Qc)) :
  TT.__init__ psutil batch workers first every monitor = Ok t0 →
  (0 ≤ first)%Z →
  let reached := (TT.run (training_steps steps) (t0, [])).1 in
  let n := Z.of_nat (length steps) in
  let timed := drop (Z.to_nat first) steps.*2 in
  let samples := Qc_of_Z (default 1%Z batch * workers) in
  TT.total_step_count reached = n ∧
  TT.total_elapsed_time reached = sum timed ∧
  (Forall (λ d, 0 < d) timed → (first < n)%Z →
   TT.avg_samples_per_sec reached
   = Ok (Finite (samples / (sum timed / Qc_of_Z (n - first)))) ∧
   (0 < samples → 0 < samples / (sum timed / Qc_of_Z (n - first)))).
Proof.
  intros Ht0 Hfirst. apply init_state in Ht0 as ->. cbv zeta.
  destruct (training_steps_run steps
              (TT.mk 0 0 false (default 1%Z batch) workers first 0 0 0 0 every
                 monitor false, []) eq_refl)
    as (_ & Hn & Hf & Hb & Hw & He).
  cbn [fst TT.total_step_count TT.start_step TT.batch_size TT.num_workers
         TT.total_elapsed_time] in *.
  rewrite Z.add_0_l in Hn. rewrite Qcplus_0_l, Z.sub_0_r in He.
  split_and!; [done|done|]. intros Hpos Hlt.
  assert (0 < sum (drop (Z.to_nat first) steps.*2)) as Htimed.
  { apply sum_pos; [done|]. intros Hnil.
    apply (f_equal length) in Hnil.
    rewrite length_drop, length_fmap in Hnil. cbn in Hnil. lia. }
  assert (0 < Qc_of_Z (Z.of_nat (length steps) - first)) as Hoff.
  { rewrite <-Z2Qc_inj_0. apply (proj1 (Z2Qc_inj_lt _ _)). lia. }
  split.
  - rewrite avg_division; rewrite ?Hn, ?Hf, ?Hb, ?Hw, ?He; [done|lia|lia|].
    intros H0. rewrite H0 in Htimed. by apply (Qclt_not_eq 0 0).
  - intros Hsamples. apply Qcdiv_pos; [done|]. by apply Qcdiv_pos.
Qed.

Lemma X23_witness :
  let reached :=
    (TT.run (training_steps [(0, 1); (1, 1); (Qc_of_Z 2, Qc_of_Z 5)])
       (tracker_32, [])).1 in
  TT.total_elapsed_time reached = Qc_of_Z 5 ∧
  TT.avg_samples_per_sec reached
  = Ok (Finite (Qc_of_Z 128 / (Qc_of_Z 5 / 1))).
Proof.
  cbv zeta.
  destruct (X23_varying_step_times true (Some 32%Z) 4 2 50 false tracker_32
              [(0, 1); (1, 1); (Qc_of_Z 2, Qc_of_Z 5)] eq_refl)
    as (_ & -> & Hrate); [lia|].
  destruct Hrate as [-> _].
  - by apply Forall_singleton.
  - cbn. lia.
  - split; [by apply Qc_is_canon|]. by do 2 f_equal.
Defined.
